(** * MT-Bench evaluators ([instructlab/eval/mt_bench.py])

    A shallow embedding of [AbstractMTBenchEvaluator], [MTBenchEvaluator]
    and [MTBenchBranchEvaluator].  An evaluator instance is its attribute
    dictionary; the methods run in a state-and-exception monad whose state
    holds that dictionary, the world the three external collaborators act
    on, the sequence of collaborator calls made so far, and the debug log. *)

From Stdlib Require Import ZArith String List.
From stdpp Require Import gmap strings list fin_maps.

Local Open Scope string_scope.
Local Open Scope list_scope.

#[local] Set Warnings "-register-all".

(** ** Python values *)

(** The values that reach this module.  [PyFloat] carries the IEEE-754 bit
    pattern; the module never looks inside a float. *)
Inductive PyObj : Type :=
| PyNone
| PyBool (b : bool)
| PyInt (z : Z)
| PyFloat (bits : Z)
| PyStr (s : string)
| PyTuple (items : list PyObj)
| PyList (items : list PyObj)
| PyDict (items : list (PyObj * PyObj)).

(** [v == lit] for a string literal [lit]. *)
Definition eq_str (v : PyObj) (lit : string) : bool :=
  match v with
  | PyStr s => String.eqb s lit
  | _ => false
  end.

(** The integer denoted by an [int]-typed object.  [bool] is a subclass of
    [int]: [isinstance(True, int)] holds and [True] counts as 1.  [None]
    for every object that is not an instance of [int]. *)
Definition int_value (v : PyObj) : option Z :=
  match v with
  | PyInt z => Some z
  | PyBool b => Some (Z.b2z b)
  | _ => None
  end.

Definition isinstance_int (v : PyObj) : bool :=
  match int_value v with Some _ => true | None => false end.

(** [v > 0], evaluated only behind [isinstance(v, int)]. *)
Definition gt_zero (v : PyObj) : bool :=
  match int_value v with Some z => (0 <? z)%Z | None => false end.

(** [serving_gpus: int | None] as the object that is stored. *)
Definition of_optional_int (o : option Z) : PyObj :=
  match o with Some z => PyInt z | None => PyNone end.

(** ** Exceptions and results *)

Inductive Exn : Type :=
| InvalidMaxWorkersError (max_workers : PyObj)
| AttributeError (name : string)
| ValueError
| TypeError
| OtherError (name : string).

Inductive result (A : Type) : Type :=
| Ok (a : A)
| Raise (e : Exn).

Arguments Ok {A} a.
Arguments Raise {A} e.

(** ** The host *)

(** [os.sched_getaffinity(0)] is [None] on a platform where the attribute
    does not exist (the [AttributeError] branch), otherwise the set of
    CPUs the process may run on; [cpu_count] is
    [multiprocessing.cpu_count()]. *)
Record Host : Type := {
  sched_getaffinity : option (gset nat);
  cpu_count : nat
}.

Definition usable_cpu_count (h : Host) : Z :=
  match sched_getaffinity h with
  | Some cpus => Z.of_nat (size cpus)
  | None => Z.of_nat (cpu_count h)
  end.

(** ** Collaborators, calls and the log *)

Inductive Collaborator : Type :=
| mt_bench_answers_generate_answers
| mt_bench_branch_generator_generate
| mt_bench_judgment_generate_judgment.

(** One call: positional arguments, then keyword arguments in the order
    they are written at the call site.  A keyword that is not passed is
    simply absent (the collaborator's own default applies). *)
Record Call : Type := {
  callee : Collaborator;
  args : list PyObj;
  kwargs : list (string * PyObj)
}.

Inductive LogRecord : Type :=
| Debug (msg : string) (params : list PyObj)
| DebugLocals (self : gmap string PyObj) (server_url : PyObj).

(** ** State and monad *)

Section Evaluators.

(** [W]: whatever the collaborators read and write (the files under the
    output directory, the model servers). *)
Context {W : Type}.

Record State : Type := {
  attrs : gmap string PyObj;
  world : W;
  calls : list Call;
  logs : list LogRecord
}.

Definition M (A : Type) : Type := State -> result A * State.

Definition ret {A} (a : A) : M A := fun st => (Ok a, st).

Definition raise {A} (e : Exn) : M A := fun st => (Raise e, st).

Definition bind {A B} (m : M A) (k : A -> M B) : M B :=
  fun st =>
    match m st with
    | (Ok a, st') => k a st'
    | (Raise e, st') => (Raise e, st')
    end.

(** [self.name = v] *)
Definition setattr (name : string) (v : PyObj) : M unit :=
  fun st =>
    (Ok tt, {| attrs := <[name := v]> (attrs st); world := world st;
               calls := calls st; logs := logs st |}).

(** [self.name] *)
Definition getattr (name : string) : M PyObj :=
  fun st =>
    match attrs st !! name with
    | Some v => (Ok v, st)
    | None => (Raise (AttributeError name), st)
    end.

Definition log (r : LogRecord) : M unit :=
  fun st =>
    (Ok tt, {| attrs := attrs st; world := world st;
               calls := calls st; logs := logs st ++ [r] |}).

(** [logger.debug(msg, *params)] *)
Definition debug (msg : string) (params : list PyObj) : M unit :=
  log (Debug msg params).

(** [logger.debug(locals())] inside a method whose locals are [self] and
    [server_url]. *)
Definition debug_locals (server_url : PyObj) : M unit :=
  fun st => log (DebugLocals (attrs st) server_url) st.

End Evaluators.

Arguments State : clear implicits.
Arguments M : clear implicits.

Declare Scope py_scope.
Delimit Scope py_scope with py.

Notation "x <- m ;; k" := (bind m (fun x => k))
  (at level 100, m at next level, k at level 200, right associativity)
  : py_scope.
Notation "m ;; k" := (bind m (fun _ => k))
  (at level 100, k at level 200, right associativity) : py_scope.

Local Open Scope py_scope.

Section Classes.

Context {W : Type}.

(** ** [AbstractMTBenchEvaluator.__init__] *)

Definition AbstractMTBenchEvaluator__init__ (host : Host)
    (model_name judge_model_name output_dir : string)
    (max_workers : PyObj) (serving_gpus : option Z)
    (merge_system_user_message : bool) : M W unit :=
  setattr "model_name" (PyStr model_name) ;;
  setattr "judge_model_name" (PyStr judge_model_name) ;;
  setattr "output_dir" (PyStr output_dir) ;;
  setattr "serving_gpus" (of_optional_int serving_gpus) ;;
  setattr "merge_system_user_message" (PyBool merge_system_user_message) ;;
  if eq_str max_workers "auto" then
    let usable_cpu_count := usable_cpu_count host in
    match serving_gpus with
    | Some gpus =>
        setattr "max_workers"
          (PyInt (Z.min (Z.max gpus 1 * 10) usable_cpu_count)) ;;
        mw <- getattr "max_workers" ;;
        debug "Auto tuning max_workers to %s" [mw]
    | None =>
        setattr "max_workers" (PyInt (usable_cpu_count / 2)) ;;
        mw <- getattr "max_workers" ;;
        debug "max_workers set to auto but serving_gpus is not specified. Defaulting to (cpu count / 2): %s" [mw]
    end
  else
    if isinstance_int max_workers && gt_zero max_workers then
      debug "max_workers specified as: %s" [max_workers] ;;
      setattr "max_workers" max_workers
    else
      raise (InvalidMaxWorkersError max_workers).

(** [MTBenchEvaluator] inherits the constructor unchanged. *)
Definition MTBenchEvaluator__init__ := AbstractMTBenchEvaluator__init__.

(** ** [MTBenchBranchEvaluator.__init__] *)

Definition MTBenchBranchEvaluator__init__ (host : Host)
    (model_name judge_model_name taxonomy_git_repo_path branch
       output_dir : string)
    (max_workers : PyObj) (serving_gpus : option Z)
    (merge_system_user_message : bool) : M W unit :=
  AbstractMTBenchEvaluator__init__ host model_name judge_model_name
    output_dir max_workers serving_gpus merge_system_user_message ;;
  setattr "taxonomy_git_repo_path" (PyStr taxonomy_git_repo_path) ;;
  setattr "branch" (PyStr branch).

(** [Class(...)]: a fresh instance, with no attribute yet, is handed to
    [__init__]; the instance is the [attrs] of the final state when
    [__init__] returns, and is dropped when it raises. *)
Definition new (init : M W unit) : M W unit :=
  fun st =>
    init {| attrs := ∅; world := world st;
            calls := calls st; logs := logs st |}.

(** The defaults of the keyword parameters. *)
Definition default_output_dir : string := "eval_output".
Definition default_max_workers : PyObj := PyStr "auto".
Definition default_serving_gpus : option Z := None.
Definition default_merge_system_user_message : bool := false.

(** ** Calls into the collaborators *)

(** How a call acts on the world: it returns a value or raises, and
    leaves a world behind either way. *)
Variable handler : Call -> W -> result PyObj * W.

(** A blocking call: the collaborator runs to completion on the current
    world, and the call is appended to the call sequence.  Only argument
    values are handed over, never [self]. *)
Definition call (f : Collaborator) (positional : list PyObj)
    (keywords : list (string * PyObj)) : M W PyObj :=
  fun st =>
    let c := {| callee := f; args := positional; kwargs := keywords |} in
    let (r, w) := handler c (world st) in
    (r, {| attrs := attrs st; world := w;
           calls := calls st ++ [c]; logs := logs st |}).

(** What iterating over an object yields, as needed by unpacking. *)
Definition iterate (v : PyObj) : result (list PyObj) :=
  match v with
  | PyTuple items | PyList items => Ok items
  | PyDict items => Ok (map fst items)
  | PyStr s =>
      Ok (map (fun c => PyStr (String c EmptyString)) (list_ascii_of_string s))
  | _ => Raise TypeError
  end.

(** [a, b, c, d = v] *)
Definition unpack4 (v : PyObj) : M W (PyObj * PyObj * PyObj * PyObj) :=
  match iterate v with
  | Ok [a; b; c; d] => ret (a, b, c, d)
  | Ok _ => raise ValueError
  | Raise e => raise e
  end.

(** ** [MTBenchEvaluator] *)

Definition MTBenchEvaluator_name : string := "mt_bench".

Definition MTBenchEvaluator_gen_answers (server_url : PyObj) : M W PyObj :=
  debug_locals server_url ;;
  model_name <- getattr "model_name" ;;
  output_dir <- getattr "output_dir" ;;
  max_workers <- getattr "max_workers" ;;
  call mt_bench_answers_generate_answers
    [model_name; server_url]
    [("output_dir", output_dir); ("max_workers", max_workers)] ;;
  ret PyNone.

Definition MTBenchEvaluator_judge_answers (server_url : PyObj) : M W PyObj :=
  debug_locals server_url ;;
  model_name <- getattr "model_name" ;;
  judge_model_name <- getattr "judge_model_name" ;;
  max_workers <- getattr "max_workers" ;;
  output_dir <- getattr "output_dir" ;;
  merge_system_user_message <- getattr "merge_system_user_message" ;;
  call mt_bench_judgment_generate_judgment
    [model_name; judge_model_name; server_url]
    [("max_workers", max_workers); ("output_dir", output_dir);
     ("merge_system_user_message", merge_system_user_message)].

(** ** [MTBenchBranchEvaluator] *)

Definition MTBenchBranchEvaluator_name : string := "mt_bench_branch".

Definition MTBenchBranchEvaluator_gen_answers (server_url : PyObj)
    : M W PyObj :=
  debug_locals server_url ;;
  judge_model_name <- getattr "judge_model_name" ;;
  branch <- getattr "branch" ;;
  taxonomy_git_repo_path <- getattr "taxonomy_git_repo_path" ;;
  output_dir <- getattr "output_dir" ;;
  call mt_bench_branch_generator_generate
    [judge_model_name; branch; taxonomy_git_repo_path; output_dir] [] ;;
  model_name <- getattr "model_name" ;;
  branch <- getattr "branch" ;;
  output_dir <- getattr "output_dir" ;;
  data_dir <- getattr "output_dir" ;;
  max_workers <- getattr "max_workers" ;;
  call mt_bench_answers_generate_answers
    [model_name; server_url]
    [("branch", branch); ("output_dir", output_dir);
     ("data_dir", data_dir); ("max_workers", max_workers);
     ("bench_name", PyStr "mt_bench_branch")] ;;
  ret PyNone.

Definition MTBenchBranchEvaluator_judge_answers (server_url : PyObj)
    : M W PyObj :=
  debug_locals server_url ;;
  model_name <- getattr "model_name" ;;
  judge_model_name <- getattr "judge_model_name" ;;
  branch <- getattr "branch" ;;
  max_workers <- getattr "max_workers" ;;
  output_dir <- getattr "output_dir" ;;
  data_dir <- getattr "output_dir" ;;
  merge_system_user_message <- getattr "merge_system_user_message" ;;
  judgment <- call mt_bench_judgment_generate_judgment
    [model_name; judge_model_name; server_url]
    [("branch", branch); ("max_workers", max_workers);
     ("output_dir", output_dir); ("data_dir", data_dir);
     ("bench_name", PyStr "mt_bench_branch");
     ("merge_system_user_message", merge_system_user_message)] ;;
  unpacked <- unpack4 judgment ;;
  let '(_, qa_pairs, _, error_rate) := unpacked in
  ret (PyTuple [qa_pairs; error_rate]).

End Classes.

(** * Specification vocabulary *)

(** The five attributes every path of the base constructor assigns
    before it looks at [max_workers]. *)
Definition common_attrs (model_name judge_model_name output_dir : string)
    (serving_gpus : option Z) (merge_system_user_message : bool)
    : gmap string PyObj :=
  <["merge_system_user_message" := PyBool merge_system_user_message]>
  (<["serving_gpus" := of_optional_int serving_gpus]>
  (<["output_dir" := PyStr output_dir]>
  (<["judge_model_name" := PyStr judge_model_name]>
  (<["model_name" := PyStr model_name]> ∅)))).

(** A positive integer in the host language's sense: an [int]-typed
    object whose value is greater than zero. *)
Definition positive_int (v : PyObj) : Prop :=
  exists n : Z, int_value v = Some n /\ (0 < n)%Z.

(** [Class(...)] on state [st] completes and evaluates to the instance
    [self]. *)
Definition constructs {W} (init : M W unit) (st : State W)
    (self : gmap string PyObj) : Prop :=
  exists st', new init st = (Ok tt, st') /\ attrs st' = self.

(** [Class(...)] on state [st] raises [e]. *)
Definition construction_raises {W} (init : M W unit) (st : State W)
    (e : Exn) : Prop :=
  exists st', new init st = (Raise e, st').

(** Construction completes and the instance's [max_workers] is [v]. *)
Definition stores_max_workers {W} (init : M W unit) (st : State W)
    (v : PyObj) : Prop :=
  exists self, constructs init st self /\ self !! "max_workers" = Some v.

(** ** Concrete hosts and runs used as examples *)

(** Eight cores, of which the process may use four. *)
Definition host_4_of_8 : Host :=
  {| sched_getaffinity := Some (list_to_set [0; 1; 2; 3]%nat); cpu_count := 8 |}.

(** A platform without [os.sched_getaffinity], sixteen cores. *)
Definition host_16_no_affinity : Host :=
  {| sched_getaffinity := None; cpu_count := 16 |}.

(** A single-core host. *)
Definition host_single_cpu : Host :=
  {| sched_getaffinity := Some {[0%nat]}; cpu_count := 1 |}.

(** The files under the output directory stand for the world. *)
Definition start : State (list string) :=
  {| attrs := ∅; world := []; calls := []; logs := [] |}.

(** ** The collaborators' calls, as each method writes them *)

(** [mt_bench_judgment.generate_judgment(...)] of [MTBenchEvaluator]. *)
Definition standard_judgment_call (model_name judge_model_name server_url
    max_workers output_dir merge_system_user_message : PyObj) : Call :=
  {| callee := mt_bench_judgment_generate_judgment;
     args := [model_name; judge_model_name; server_url];
     kwargs := [("max_workers", max_workers); ("output_dir", output_dir);
                ("merge_system_user_message", merge_system_user_message)] |}.

(** [mt_bench_judgment.generate_judgment(...)] of
    [MTBenchBranchEvaluator]. *)
Definition branch_judgment_call (model_name judge_model_name server_url
    branch max_workers output_dir merge_system_user_message : PyObj) : Call :=
  {| callee := mt_bench_judgment_generate_judgment;
     args := [model_name; judge_model_name; server_url];
     kwargs := [("branch", branch); ("max_workers", max_workers);
                ("output_dir", output_dir); ("data_dir", output_dir);
                ("bench_name", PyStr "mt_bench_branch");
                ("merge_system_user_message", merge_system_user_message)] |}.

(** [mt_bench_branch_generator.generate(...)]: branch materialization. *)
Definition materialization_call (judge_model_name branch
    taxonomy_git_repo_path output_dir : PyObj) : Call :=
  {| callee := mt_bench_branch_generator_generate;
     args := [judge_model_name; branch; taxonomy_git_repo_path; output_dir];
     kwargs := [] |}.

(** [mt_bench_answers.generate_answers(...)] of
    [MTBenchBranchEvaluator]. *)
Definition branch_generation_call (model_name server_url branch output_dir
    max_workers : PyObj) : Call :=
  {| callee := mt_bench_answers_generate_answers;
     args := [model_name; server_url];
     kwargs := [("branch", branch); ("output_dir", output_dir);
                ("data_dir", output_dir); ("max_workers", max_workers);
                ("bench_name", PyStr "mt_bench_branch")] |}.

(** Modelled from the spec: [mt_bench_judgment.generate_judgment] is not
    among the sources; its output is "(overall_score, qa_pairs,
    turn_scores, error_rate)".  Whenever a judgment call returns, it
    returns such a 4-tuple. *)
Definition judgment_returns_4tuple {W}
    (handler : Call -> W -> result PyObj * W) : Prop :=
  forall c w v w',
    callee c = mt_bench_judgment_generate_judgment ->
    handler c w = (Ok v, w') ->
    exists overall_score qa_pairs turn_scores error_rate,
      v = PyTuple [overall_score; qa_pairs; turn_scores; error_rate].

(** A method leaves the instance's attributes as they were, however it
    ends. *)
Definition preserves_attrs {W A} (m : M W A) : Prop :=
  forall st, attrs (snd (m st)) = attrs st.

(** ** Mock collaborators *)

(** overall_score 7.5, one scored pair, one turn score, error_rate 0.0 *)
Definition mock_judgment : PyObj :=
  PyTuple [PyFloat 4620130267728707584;
           PyList [PyDict [(PyStr "question_id", PyInt 81);
                           (PyStr "score", PyInt 8)]];
           PyList [PyFloat 4620130267728707584];
           PyFloat 0].

Definition mock_collaborators (c : Call) (files : list string)
    : result PyObj * list string :=
  match callee c with
  | mt_bench_branch_generator_generate =>
      (Ok PyNone, files ++ ["question.jsonl"])
  | mt_bench_answers_generate_answers =>
      (Ok PyNone, files ++ ["model_answer.jsonl"])
  | mt_bench_judgment_generate_judgment =>
      (Ok mock_judgment, files ++ ["model_judgment.jsonl"])
  end.

Definition mock_server_url : PyObj := PyStr "http://localhost:8000/v1".

(** [MTBenchEvaluator("granite-7b", "prometheus-8x7b",
    max_workers=max_workers, serving_gpus=1)] *)
Definition standard_with (max_workers : PyObj) : M (list string) unit :=
  MTBenchEvaluator__init__ host_4_of_8 "granite-7b" "prometheus-8x7b"
    default_output_dir max_workers (Some 1%Z)
    default_merge_system_user_message.

(** [MTBenchBranchEvaluator("granite-7b", "prometheus-8x7b", "taxonomy",
    "main", max_workers=max_workers)] *)
Definition branch_with (max_workers : PyObj) : M (list string) unit :=
  MTBenchBranchEvaluator__init__ host_4_of_8 "granite-7b" "prometheus-8x7b"
    "taxonomy" "main" default_output_dir max_workers default_serving_gpus
    default_merge_system_user_message.

Definition standard_init : M (list string) unit := standard_with (PyInt 4).

Definition branch_init : M (list string) unit := branch_with (PyInt 4).

(** The states right after construction. *)
Definition standard_evaluator : State (list string) :=
  snd (new standard_init start).

Definition branch_evaluator : State (list string) :=
  snd (new branch_init start).

(** ** Further vocabulary: attribute names, log messages, more calls *)

(** [mt_bench_answers.generate_answers(...)] of [MTBenchEvaluator]. *)
Definition standard_generation_call (model_name server_url output_dir
    max_workers : PyObj) : Call :=
  {| callee := mt_bench_answers_generate_answers;
     args := [model_name; server_url];
     kwargs := [("output_dir", output_dir); ("max_workers", max_workers)] |}.

(** The attributes [AbstractMTBenchEvaluator.__init__] assigns. *)
Definition base_attr_names : gset string :=
  list_to_set ["model_name"; "judge_model_name"; "output_dir"; "serving_gpus";
               "merge_system_user_message"; "max_workers"].

(** The attributes [MTBenchBranchEvaluator.__init__] assigns. *)
Definition branch_attr_names : gset string :=
  base_attr_names ∪ list_to_set ["taxonomy_git_repo_path"; "branch"].

(** The format string of the debug record on each completing path of the
    base constructor. *)
Definition init_log_message (max_workers : PyObj) (serving_gpus : option Z)
    : string :=
  if eq_str max_workers "auto" then
    match serving_gpus with
    | Some _ => "Auto tuning max_workers to %s"
    | None => "max_workers set to auto but serving_gpus is not specified. Defaulting to (cpu count / 2): %s"
    end
  else "max_workers specified as: %s".

(** What the auto path derives from [serving_gpus] and the usable CPU
    count [c]; used to state bounds on it. *)
Definition auto_value (serving_gpus : option Z) (c : Z) : Z :=
  match serving_gpus with
  | Some gpus => Z.min (Z.max gpus 1 * 10) c
  | None => c / 2
  end.

(** The value the base constructor stores when it completes. *)
Definition stored_value (host : Host) (mw : PyObj) (sg : option Z) : PyObj :=
  if eq_str mw "auto" then PyInt (auto_value sg (usable_cpu_count host))
  else mw.

(** Both classes complete on these arguments and store [v]. *)
Definition both_store {W} (host : Host)
    (mn jmn tax br od : string) (mw : PyObj) (sg : option Z) (m : bool)
    (st : State W) (v : PyObj) : Prop :=
  stores_max_workers (MTBenchEvaluator__init__ host mn jmn od mw sg m) st v
  /\ stores_max_workers
       (MTBenchBranchEvaluator__init__ host mn jmn tax br od mw sg m) st v.

(** A computation that writes nothing to the debug log, however it
    ends. *)
Definition keeps_logs {W A} (m : M W A) : Prop :=
  forall st, logs (snd (m st)) = logs st.

(** A judgment collaborator that returns only (overall_score, qa_pairs,
    turn_scores), without an error rate. *)
Definition mock_triple : PyObj :=
  PyTuple [PyFloat 4620130267728707584; PyList []; PyList []].

Definition mock_triple_collaborators (c : Call) (files : list string)
    : result PyObj * list string :=
  match callee c with
  | mt_bench_judgment_generate_judgment =>
      (Ok mock_triple, files ++ ["model_judgment.jsonl"])
  | _ => mock_collaborators c files
  end.

(** The judge model's endpoint, distinct from the evaluated model's. *)
Definition mock_judge_url : PyObj := PyStr "http://localhost:8001/v1".

(** * Properties *)

Section Construction.

Context {W : Type}.

Lemma init_auto_gpus host mn jmn od gpus m (st : State W) :
  new (AbstractMTBenchEvaluator__init__ host mn jmn od (PyStr "auto")
         (Some gpus) m) st
  = (Ok tt,
     let mw := PyInt (Z.min (Z.max gpus 1 * 10) (usable_cpu_count host)) in
     {| attrs := <["max_workers" := mw]> (common_attrs mn jmn od (Some gpus) m);
        world := world st; calls := calls st;
        logs := logs st ++ [Debug "Auto tuning max_workers to %s" [mw]] |}).
Proof.
  cbv [new AbstractMTBenchEvaluator__init__ bind setattr getattr debug log
       attrs world calls logs eq_str common_attrs].
  rewrite String.eqb_refl, lookup_insert_eq. reflexivity.
Qed.

Lemma init_auto_no_gpus host mn jmn od m (st : State W) :
  new (AbstractMTBenchEvaluator__init__ host mn jmn od (PyStr "auto")
         None m) st
  = (Ok tt,
     let mw := PyInt (usable_cpu_count host / 2) in
     {| attrs := <["max_workers" := mw]> (common_attrs mn jmn od None m);
        world := world st; calls := calls st;
        logs := logs st ++ [Debug "max_workers set to auto but serving_gpus is not specified. Defaulting to (cpu count / 2): %s" [mw]] |}).
Proof.
  cbv [new AbstractMTBenchEvaluator__init__ bind setattr getattr debug log
       attrs world calls logs eq_str common_attrs].
  rewrite String.eqb_refl, lookup_insert_eq. reflexivity.
Qed.

Lemma init_explicit host mn jmn od mw sg m (st : State W) :
  eq_str mw "auto" = false ->
  isinstance_int mw && gt_zero mw = true ->
  new (AbstractMTBenchEvaluator__init__ host mn jmn od mw sg m) st
  = (Ok tt,
     {| attrs := <["max_workers" := mw]> (common_attrs mn jmn od sg m);
        world := world st; calls := calls st;
        logs := logs st ++ [Debug "max_workers specified as: %s" [mw]] |}).
Proof.
  intros Hauto Hpos.
  cbv [new AbstractMTBenchEvaluator__init__ bind setattr getattr debug log
       attrs world calls logs common_attrs].
  rewrite Hauto, Hpos. reflexivity.
Qed.

Lemma init_invalid host mn jmn od mw sg m (st : State W) :
  eq_str mw "auto" = false ->
  isinstance_int mw && gt_zero mw = false ->
  new (AbstractMTBenchEvaluator__init__ host mn jmn od mw sg m) st
  = (Raise (InvalidMaxWorkersError mw),
     {| attrs := common_attrs mn jmn od sg m;
        world := world st; calls := calls st; logs := logs st |}).
Proof.
  intros Hauto Hpos.
  cbv [new AbstractMTBenchEvaluator__init__ bind setattr raise
       attrs world calls logs common_attrs].
  rewrite Hauto, Hpos. reflexivity.
Qed.

(** The derived constructor: the base constructor, then two more
    attributes. *)
Lemma branch_init_unfold host mn jmn tax br od mw sg m (st : State W) :
  new (MTBenchBranchEvaluator__init__ host mn jmn tax br od mw sg m) st
  = match new (AbstractMTBenchEvaluator__init__ host mn jmn od mw sg m) st with
    | (Ok _, st') =>
        (Ok tt,
         {| attrs := <["branch" := PyStr br]>
                       (<["taxonomy_git_repo_path" := PyStr tax]> (attrs st'));
            world := world st'; calls := calls st'; logs := logs st' |})
    | (Raise e, st') => (Raise e, st')
    end.
Proof.
  unfold new, MTBenchBranchEvaluator__init__, bind at 1.
  destruct (AbstractMTBenchEvaluator__init__ _ _ _ _ _ _ _ _) as [[[]|e] st'];
    reflexivity.
Qed.

(** [eq_str] decides equality with the string object. *)
Lemma eq_str_true v lit : eq_str v lit = true <-> v = PyStr lit.
Proof.
  destruct v; simpl; try (split; [discriminate | discriminate]).
  rewrite String.eqb_eq. split; [intros -> | intros [= ->]]; reflexivity.
Qed.

Lemma eq_str_false v lit : eq_str v lit = false <-> v <> PyStr lit.
Proof.
  rewrite <- eq_str_true. destruct (eq_str v lit); split; congruence.
Qed.

Lemma positive_int_check v :
  isinstance_int v && gt_zero v = true <-> positive_int v.
Proof.
  unfold isinstance_int, gt_zero, positive_int.
  destruct (int_value v) as [n|]; simpl.
  - rewrite Z.ltb_lt. split; [eauto | intros (k & [= <-] & Hk); exact Hk].
  - split; [discriminate | intros (k & Hk & _); discriminate].
Qed.

Lemma positive_int_not_auto v : positive_int v -> eq_str v "auto" = false.
Proof. intros (n & Hn & _). destruct v; try reflexivity; discriminate. Qed.

(** Every run of the base constructor, by the three ways it can go. *)
Lemma init_cases host mn jmn od mw sg m (st : State W) :
  let r := new (AbstractMTBenchEvaluator__init__ host mn jmn od mw sg m) st in
  (mw = PyStr "auto" /\ fst r = Ok tt
     /\ attrs (snd r) = <["max_workers" :=
          PyInt match sg with
                | Some gpus => Z.min (Z.max gpus 1 * 10) (usable_cpu_count host)
                | None => usable_cpu_count host / 2
                end]> (common_attrs mn jmn od sg m))
  \/ (mw <> PyStr "auto" /\ positive_int mw /\ fst r = Ok tt
     /\ attrs (snd r) = <["max_workers" := mw]> (common_attrs mn jmn od sg m))
  \/ (mw <> PyStr "auto" /\ ~ positive_int mw
     /\ fst r = Raise (InvalidMaxWorkersError mw)).
Proof.
  intros r. subst r.
  destruct (eq_str mw "auto") eqn:Hauto.
  - left. apply eq_str_true in Hauto. subst mw.
    destruct sg as [gpus|];
      [rewrite init_auto_gpus | rewrite init_auto_no_gpus]; auto.
  - right. destruct (isinstance_int mw && gt_zero mw) eqn:Hpos.
    + left. rewrite init_explicit by assumption.
      apply eq_str_false in Hauto. apply positive_int_check in Hpos. auto.
    + right. rewrite init_invalid by assumption.
      apply eq_str_false in Hauto.
      rewrite <- positive_int_check, Hpos. auto.
Qed.

Lemma lookup_max_workers_base v (a : gmap string PyObj) :
  <["max_workers" := v]> a !! "max_workers" = Some v.
Proof. apply lookup_insert_eq. Qed.

Lemma lookup_max_workers_branch tax br v (a : gmap string PyObj) :
  <["branch" := br]> (<["taxonomy_git_repo_path" := tax]>
    (<["max_workers" := v]> a)) !! "max_workers" = Some v.
Proof. by simplify_map_eq. Qed.

(** When the base constructor completes with [max_workers = v], so do
    both concrete classes. *)
Lemma stores_both host mn jmn tax br od mw sg m (st : State W) v a :
  new (AbstractMTBenchEvaluator__init__ host mn jmn od mw sg m) st
    = (Ok tt, a) ->
  attrs a !! "max_workers" = Some v ->
  stores_max_workers (MTBenchEvaluator__init__ host mn jmn od mw sg m) st v
  /\ stores_max_workers
       (MTBenchBranchEvaluator__init__ host mn jmn tax br od mw sg m) st v.
Proof.
  intros Hrun Hmw. split.
  - exists (attrs a). split; [exists a; auto | exact Hmw].
  - eexists. split.
    + eexists. rewrite branch_init_unfold, Hrun. split; reflexivity.
    + simpl. by simplify_map_eq.
Qed.

(** When the base constructor raises, both concrete classes raise the
    same exception. *)
Lemma raises_both host mn jmn tax br od mw sg m (st : State W) e a :
  new (AbstractMTBenchEvaluator__init__ host mn jmn od mw sg m) st
    = (Raise e, a) ->
  construction_raises (MTBenchEvaluator__init__ host mn jmn od mw sg m) st e
  /\ construction_raises
       (MTBenchBranchEvaluator__init__ host mn jmn tax br od mw sg m) st e.
Proof.
  intros Hrun. split.
  - exists a. exact Hrun.
  - exists a. rewrite branch_init_unfold, Hrun. reflexivity.
Qed.

(** C3: with [max_workers = "auto"] and usable CPU count [c], the stored
    budget is [min(max(g, 1) * 10, c)] when [serving_gpus = g] is given
    (so [min(10, c)] for [g = 0]) and [c // 2] when [serving_gpus] is
    absent; for [MTBenchEvaluator] and [MTBenchBranchEvaluator] alike. *)
Theorem auto_budget host mn jmn tax br od m (st : State W) :
  let c := usable_cpu_count host in
  let std := MTBenchEvaluator__init__ host mn jmn od (PyStr "auto") in
  let bra := MTBenchBranchEvaluator__init__ host mn jmn tax br od (PyStr "auto") in
  (forall g : Z,
      stores_max_workers (std (Some g) m) st (PyInt (Z.min (Z.max g 1 * 10) c))
      /\ stores_max_workers (bra (Some g) m) st (PyInt (Z.min (Z.max g 1 * 10) c)))
  /\ (stores_max_workers (std (Some 0%Z) m) st (PyInt (Z.min 10 c))
      /\ stores_max_workers (bra (Some 0%Z) m) st (PyInt (Z.min 10 c)))
  /\ (stores_max_workers (std None m) st (PyInt (c / 2))
      /\ stores_max_workers (bra None m) st (PyInt (c / 2))).
Proof.
  intros c std bra. subst c std bra.
  assert (Hg : forall g : Z,
    stores_max_workers
      (MTBenchEvaluator__init__ host mn jmn od (PyStr "auto") (Some g) m) st
      (PyInt (Z.min (Z.max g 1 * 10) (usable_cpu_count host)))
    /\ stores_max_workers
      (MTBenchBranchEvaluator__init__ host mn jmn tax br od (PyStr "auto")
         (Some g) m) st
      (PyInt (Z.min (Z.max g 1 * 10) (usable_cpu_count host)))).
  { intros g. eapply stores_both; [apply init_auto_gpus |].
    apply lookup_max_workers_base. }
  split; [exact Hg | split].
  - exact (Hg 0%Z).
  - eapply stores_both; [apply init_auto_no_gpus |].
    apply lookup_max_workers_base.
Qed.

(** C4: an explicit positive integer [n] is stored as it is, whatever
    [serving_gpus] and the host are. *)
Theorem explicit_budget (n : Z) host mn jmn tax br od sg m (st : State W) :
  (0 < n)%Z ->
  stores_max_workers
    (MTBenchEvaluator__init__ host mn jmn od (PyInt n) sg m) st (PyInt n)
  /\ stores_max_workers
       (MTBenchBranchEvaluator__init__ host mn jmn tax br od (PyInt n) sg m)
       st (PyInt n).
Proof.
  intros Hn. eapply stores_both.
  - apply init_explicit; [reflexivity |].
    apply positive_int_check. exists n. split; [reflexivity | exact Hn].
  - apply lookup_max_workers_base.
Qed.

(** C5: construction raises exactly when [max_workers] is neither
    ["auto"] nor a positive integer, and what it raises is
    [InvalidMaxWorkersError] carrying that very value. *)
Theorem invalid_max_workers host mn jmn tax br od mw sg m (st : State W) e :
  (construction_raises (MTBenchEvaluator__init__ host mn jmn od mw sg m) st e
   <-> e = InvalidMaxWorkersError mw /\ mw <> PyStr "auto" /\ ~ positive_int mw)
  /\ (construction_raises
        (MTBenchBranchEvaluator__init__ host mn jmn tax br od mw sg m) st e
      <-> e = InvalidMaxWorkersError mw /\ mw <> PyStr "auto" /\ ~ positive_int mw).
Proof.
  assert (Hbase :
    (exists a, new (AbstractMTBenchEvaluator__init__ host mn jmn od mw sg m) st
               = (Raise e, a))
    <-> e = InvalidMaxWorkersError mw /\ mw <> PyStr "auto" /\ ~ positive_int mw).
  { split.
    - intros [a Hrun].
      destruct (init_cases host mn jmn od mw sg m st)
        as [(_ & Hok & _) | [(_ & _ & Hok & _) | (Hne & Hnp & Hr)]];
        rewrite Hrun in *; simpl in *; try discriminate.
      injection Hr as ->. auto.
    - intros (-> & Hne & Hnp). eexists. apply init_invalid.
      + by apply eq_str_false.
      + destruct (isinstance_int mw && gt_zero mw) eqn:Hc; [| reflexivity].
        apply positive_int_check in Hc. contradiction. }
  split.
  - exact Hbase.
  - rewrite <- Hbase. unfold construction_raises.
    setoid_rewrite branch_init_unfold.
    destruct (new (AbstractMTBenchEvaluator__init__ _ _ _ _ _ _ _) st)
      as [[[]|e'] a].
    + split; intros [? ?]; discriminate.
    + split; intros [x Hx]; injection Hx as <- _; eauto.
Qed.

(** C8: with [max_workers = "auto"] and [serving_gpus] unset, construction
    completes on every host, whatever its CPU count: it stores [c // 2]
    and raises nothing. *)
Theorem auto_no_gpus_never_raises host mn jmn tax br od m (st : State W) :
  let std := MTBenchEvaluator__init__ host mn jmn od (PyStr "auto") None m in
  let bra :=
    MTBenchBranchEvaluator__init__ host mn jmn tax br od (PyStr "auto") None m in
  (exists st', new std st = (Ok tt, st'))
  /\ (exists st', new bra st = (Ok tt, st'))
  /\ (forall e, ~ construction_raises std st e)
  /\ (forall e, ~ construction_raises bra st e).
Proof.
  intros std bra. subst std bra.
  pose proof (init_auto_no_gpus host mn jmn od m st) as Hrun.
  assert (Hbra : exists st',
    new (MTBenchBranchEvaluator__init__ host mn jmn tax br od (PyStr "auto")
           None m) st = (Ok tt, st')).
  { rewrite branch_init_unfold, Hrun. eauto. }
  unfold MTBenchEvaluator__init__.
  repeat split.
  - rewrite Hrun. eauto.
  - exact Hbra.
  - intros e [a Ha]. rewrite Hrun in Ha. discriminate.
  - intros e [a Ha]. destruct Hbra as [b Hb]. rewrite Hb in Ha. discriminate.
Qed.

(** C10: [max_workers = True] passes the validity check, because a
    boolean is [int]-typed and [True] counts as 1: construction completes
    and stores [True] itself. *)
Theorem bool_true_accepted host mn jmn tax br od sg m (st : State W) :
  isinstance_int (PyBool true) = true
  /\ int_value (PyBool true) = Some 1%Z
  /\ stores_max_workers
       (MTBenchEvaluator__init__ host mn jmn od (PyBool true) sg m) st
       (PyBool true)
  /\ stores_max_workers
       (MTBenchBranchEvaluator__init__ host mn jmn tax br od (PyBool true) sg m)
       st (PyBool true).
Proof.
  split; [reflexivity | split; [reflexivity |]].
  eapply stores_both.
  - apply init_explicit; reflexivity.
  - apply lookup_max_workers_base.
Qed.

End Construction.

Section Methods.

Context {W : Type}.
Variable handler : Call -> W -> result PyObj * W.

(** ** What a constructed instance holds *)

Lemma constructs_standard_attrs host mn jmn od mw sg m (st0 : State W) self :
  constructs (MTBenchEvaluator__init__ host mn jmn od mw sg m) st0 self ->
  exists v, self = <["max_workers" := v]> (common_attrs mn jmn od sg m).
Proof.
  intros (st' & Hrun & <-).
  destruct (init_cases host mn jmn od mw sg m st0)
    as [(_ & _ & Ha) | [(_ & _ & _ & Ha) | (_ & _ & Hr)]];
    unfold MTBenchEvaluator__init__ in Hrun; rewrite Hrun in *; simpl in *.
  - eauto.
  - eauto.
  - discriminate.
Qed.

Lemma constructs_branch_attrs host mn jmn tax br od mw sg m (st0 : State W) self :
  constructs (MTBenchBranchEvaluator__init__ host mn jmn tax br od mw sg m)
    st0 self ->
  exists v,
    self = <["branch" := PyStr br]>
             (<["taxonomy_git_repo_path" := PyStr tax]>
                (<["max_workers" := v]> (common_attrs mn jmn od sg m))).
Proof.
  intros (st' & Hrun & <-). rewrite branch_init_unfold in Hrun.
  destruct (new (AbstractMTBenchEvaluator__init__ host mn jmn od mw sg m) st0)
    as [[[]|e] a] eqn:Hbase; [| discriminate].
  injection Hrun as <-. simpl.
  destruct (constructs_standard_attrs host mn jmn od mw sg m st0 (attrs a))
    as [v ->]; [exists a; auto | eauto].
Qed.

(** ** Running the methods on an instance whose attributes are known *)

Ltac run_method :=
  cbv [MTBenchEvaluator_gen_answers MTBenchEvaluator_judge_answers
       MTBenchBranchEvaluator_gen_answers MTBenchBranchEvaluator_judge_answers
       bind getattr debug_locals log call ret
       attrs world calls logs].

(** Read the attributes the hypotheses give, one [getattr] after the
    other. *)
Ltac read_attrs :=
  run_method;
  repeat (match goal with
          | H : _ !! _ = Some _ |- _ => rewrite H
          end; run_method).

Lemma standard_judge_answers_run (st : State W) url mn jmn mw od ms :
  attrs st !! "model_name" = Some mn ->
  attrs st !! "judge_model_name" = Some jmn ->
  attrs st !! "max_workers" = Some mw ->
  attrs st !! "output_dir" = Some od ->
  attrs st !! "merge_system_user_message" = Some ms ->
  MTBenchEvaluator_judge_answers handler url st
  = let c := standard_judgment_call mn jmn url mw od ms in
    (fst (handler c (world st)),
     {| attrs := attrs st; world := snd (handler c (world st));
        calls := calls st ++ [c];
        logs := logs st ++ [DebugLocals (attrs st) url] |}).
Proof.
  intros Hmn Hjmn Hmw Hod Hms. destruct st as [a w0 cs ls]; simpl in *.
  read_attrs.
  unfold standard_judgment_call.
  destruct (handler _ w0) as [r w]. reflexivity.
Qed.

Lemma branch_judge_answers_run (st : State W) url mn jmn br mw od ms :
  attrs st !! "model_name" = Some mn ->
  attrs st !! "judge_model_name" = Some jmn ->
  attrs st !! "branch" = Some br ->
  attrs st !! "max_workers" = Some mw ->
  attrs st !! "output_dir" = Some od ->
  attrs st !! "merge_system_user_message" = Some ms ->
  MTBenchBranchEvaluator_judge_answers handler url st
  = let c := branch_judgment_call mn jmn url br mw od ms in
    let after :=
      {| attrs := attrs st; world := snd (handler c (world st));
         calls := calls st ++ [c];
         logs := logs st ++ [DebugLocals (attrs st) url] |} in
    match fst (handler c (world st)) with
    | Ok judgment =>
        match iterate judgment with
        | Ok [_; qa_pairs; _; error_rate] =>
            (Ok (PyTuple [qa_pairs; error_rate]), after)
        | Ok _ => (Raise ValueError, after)
        | Raise e => (Raise e, after)
        end
    | Raise e => (Raise e, after)
    end.
Proof.
  intros Hmn Hjmn Hbr Hmw Hod Hms. destruct st as [a w0 cs ls]; simpl in *.
  read_attrs.
  unfold branch_judgment_call.
  destruct (handler _ w0) as [[judgment|e] w]; simpl; [| reflexivity].
  unfold unpack4.
  destruct (iterate judgment) as [[|x1 [|x2 [|x3 [|x4 [|x5 l]]]]]|e]; reflexivity.
Qed.

Lemma branch_gen_answers_run (st : State W) url mn jmn tax br mw od :
  attrs st !! "model_name" = Some mn ->
  attrs st !! "judge_model_name" = Some jmn ->
  attrs st !! "taxonomy_git_repo_path" = Some tax ->
  attrs st !! "branch" = Some br ->
  attrs st !! "max_workers" = Some mw ->
  attrs st !! "output_dir" = Some od ->
  MTBenchBranchEvaluator_gen_answers handler url st
  = let c1 := materialization_call jmn br tax od in
    let c2 := branch_generation_call mn url br od mw in
    let w1 := snd (handler c1 (world st)) in
    let log1 := logs st ++ [DebugLocals (attrs st) url] in
    match fst (handler c1 (world st)) with
    | Raise e =>
        (Raise e,
         {| attrs := attrs st; world := w1;
            calls := calls st ++ [c1]; logs := log1 |})
    | Ok _ =>
        (match fst (handler c2 w1) with
         | Ok _ => Ok PyNone
         | Raise e => Raise e
         end,
         {| attrs := attrs st; world := snd (handler c2 w1);
            calls := (calls st ++ [c1]) ++ [c2]; logs := log1 |})
    end.
Proof.
  intros Hmn Hjmn Htax Hbr Hmw Hod. destruct st as [a w0 cs ls]; simpl in *.
  read_attrs.
  unfold materialization_call, branch_generation_call.
  destruct (handler _ w0) as [[r1|e1] w1]; simpl; [| reflexivity].
  read_attrs.
  destruct (handler _ w1) as [[r2|e2] w2]; reflexivity.
Qed.

(** ** The attributes of constructed instances, one by one *)

Lemma standard_lookups v mn jmn od sg m :
  let self := <["max_workers" := v]> (common_attrs mn jmn od sg m) in
  self !! "model_name" = Some (PyStr mn)
  /\ self !! "judge_model_name" = Some (PyStr jmn)
  /\ self !! "max_workers" = Some v
  /\ self !! "output_dir" = Some (PyStr od)
  /\ self !! "merge_system_user_message" = Some (PyBool m).
Proof. unfold common_attrs. repeat split; by simplify_map_eq. Qed.

Lemma branch_lookups v mn jmn tax br od sg m :
  let self := <["branch" := PyStr br]>
                (<["taxonomy_git_repo_path" := PyStr tax]>
                   (<["max_workers" := v]> (common_attrs mn jmn od sg m))) in
  self !! "model_name" = Some (PyStr mn)
  /\ self !! "judge_model_name" = Some (PyStr jmn)
  /\ self !! "taxonomy_git_repo_path" = Some (PyStr tax)
  /\ self !! "branch" = Some (PyStr br)
  /\ self !! "max_workers" = Some v
  /\ self !! "output_dir" = Some (PyStr od)
  /\ self !! "merge_system_user_message" = Some (PyBool m).
Proof. unfold common_attrs. repeat split; by simplify_map_eq. Qed.

(** ** Judgment *)

(** [MTBenchEvaluator.judge_answers] makes one judgment call and hands
    back the outcome of that call as it is, adding and dropping nothing:
    every component the collaborator produces reaches the caller,
    [error_rate] included. *)
Theorem standard_judge_answers_passthrough host mn jmn od mw sg m
    (st0 st : State W) url :
  constructs (MTBenchEvaluator__init__ host mn jmn od mw sg m) st0 (attrs st) ->
  exists v,
    attrs st !! "max_workers" = Some v
    /\ let c := standard_judgment_call (PyStr mn) (PyStr jmn) url v
                  (PyStr od) (PyBool m) in
       let run := MTBenchEvaluator_judge_answers handler url st in
       fst run = fst (handler c (world st))
       /\ calls (snd run) = calls st ++ [c]
       /\ (judgment_returns_4tuple handler ->
           forall r, fst run = Ok r ->
             exists overall_score qa_pairs turn_scores error_rate,
               r = PyTuple [overall_score; qa_pairs; turn_scores; error_rate]).
Proof.
  intros Hself.
  destruct (constructs_standard_attrs _ _ _ _ _ _ _ _ _ Hself) as [v Hattrs].
  destruct (standard_lookups v mn jmn od sg m)
    as (Hmn & Hjmn & Hmw & Hod & Hms).
  rewrite <- Hattrs in Hmn, Hjmn, Hmw, Hod, Hms.
  exists v. split; [exact Hmw |].
  intros c run. subst run.
  rewrite (standard_judge_answers_run st url _ _ _ _ _ Hmn Hjmn Hmw Hod Hms).
  fold c. simpl. repeat split.
  intros Hcontract r Hr.
  destruct (handler c (world st)) as [r' w'] eqn:Hcall. simpl in Hr. subst r'.
  exact (Hcontract c (world st) r w' eq_refl Hcall).
Qed.

(** C6: [MTBenchBranchEvaluator.judge_answers] makes one judgment call with
    the branch bindings; when that call returns the 4-tuple
    (overall_score, qa_pairs, turn_scores, error_rate), the method returns
    the 2-tuple (qa_pairs, error_rate); and whatever it returns is a
    2-tuple made of the second and fourth component of what the call
    returned. *)
Theorem branch_judge_answers_pair host mn jmn tax br od mw sg m
    (st0 st : State W) url :
  constructs (MTBenchBranchEvaluator__init__ host mn jmn tax br od mw sg m)
    st0 (attrs st) ->
  exists v,
    attrs st !! "max_workers" = Some v
    /\ let c := branch_judgment_call (PyStr mn) (PyStr jmn) url (PyStr br) v
                  (PyStr od) (PyBool m) in
       let run := MTBenchBranchEvaluator_judge_answers handler url st in
       calls (snd run) = calls st ++ [c]
       /\ (forall overall_score qa_pairs turn_scores error_rate,
             fst (handler c (world st))
               = Ok (PyTuple [overall_score; qa_pairs; turn_scores; error_rate]) ->
             fst run = Ok (PyTuple [qa_pairs; error_rate]))
       /\ (forall r, fst run = Ok r ->
             exists judgment overall_score qa_pairs turn_scores error_rate,
               fst (handler c (world st)) = Ok judgment
               /\ iterate judgment
                  = Ok [overall_score; qa_pairs; turn_scores; error_rate]
               /\ r = PyTuple [qa_pairs; error_rate]).
Proof.
  intros Hself.
  destruct (constructs_branch_attrs _ _ _ _ _ _ _ _ _ _ _ Hself) as [v Hattrs].
  destruct (branch_lookups v mn jmn tax br od sg m)
    as (Hmn & Hjmn & Htax & Hbr & Hmw & Hod & Hms).
  rewrite <- Hattrs in Hmn, Hjmn, Htax, Hbr, Hmw, Hod, Hms.
  exists v. split; [exact Hmw |].
  intros c run. subst run.
  rewrite (branch_judge_answers_run st url _ _ _ _ _ _ Hmn Hjmn Hbr Hmw Hod Hms).
  fold c. cbv zeta.
  destruct (handler c (world st)) as [[judgment|e] w']; simpl.
  - repeat split.
    + destruct (iterate judgment)
        as [[|x1 [|x2 [|x3 [|x4 [|x5 l]]]]]|e]; reflexivity.
    + intros os qa ts er [= ->]. reflexivity.
    + intros r Hr.
      destruct (iterate judgment)
        as [[|x1 [|x2 [|x3 [|x4 [|x5 l]]]]]|e] eqn:Hiter;
        simpl in Hr; try discriminate.
      injection Hr as <-. exists judgment, x1, x2, x3, x4. auto.
  - repeat split; intros; discriminate.
Qed.

(** ** Generation on a branch *)

(** C7: [MTBenchBranchEvaluator.gen_answers] first calls branch
    materialization with (judge_model_name, branch,
    taxonomy_git_repo_path, output_dir) on the world as it finds it; only
    when that call has returned does it call answer generation, on the
    world materialization left, with [branch], [data_dir = output_dir] and
    [bench_name = "mt_bench_branch"] bound.  When materialization raises,
    generation is not called at all. *)
Theorem branch_gen_answers_order host mn jmn tax br od mw sg m
    (st0 st : State W) url :
  constructs (MTBenchBranchEvaluator__init__ host mn jmn tax br od mw sg m)
    st0 (attrs st) ->
  exists v,
    attrs st !! "max_workers" = Some v
    /\ let c1 := materialization_call (PyStr jmn) (PyStr br) (PyStr tax)
                   (PyStr od) in
       let c2 := branch_generation_call (PyStr mn) url (PyStr br) (PyStr od) v in
       let run := MTBenchBranchEvaluator_gen_answers handler url st in
       match handler c1 (world st) with
       | (Raise e, w1) =>
           fst run = Raise e
           /\ calls (snd run) = calls st ++ [c1]
           /\ world (snd run) = w1
       | (Ok _, w1) =>
           fst run = match fst (handler c2 w1) with
                     | Ok _ => Ok PyNone
                     | Raise e => Raise e
                     end
           /\ calls (snd run) = calls st ++ [c1; c2]
           /\ world (snd run) = snd (handler c2 w1)
       end.
Proof.
  intros Hself.
  destruct (constructs_branch_attrs _ _ _ _ _ _ _ _ _ _ _ Hself) as [v Hattrs].
  destruct (branch_lookups v mn jmn tax br od sg m)
    as (Hmn & Hjmn & Htax & Hbr & Hmw & Hod & Hms).
  rewrite <- Hattrs in Hmn, Hjmn, Htax, Hbr, Hmw, Hod, Hms.
  exists v. split; [exact Hmw |].
  intros c1 c2 run. subst run.
  rewrite (branch_gen_answers_run st url _ _ _ _ _ _ Hmn Hjmn Htax Hbr Hmw Hod).
  fold c1 c2. cbv zeta.
  destruct (handler c1 (world st)) as [[r1|e1] w1]; simpl.
  - rewrite <- app_assoc. auto.
  - auto.
Qed.

(** ** The frame of the methods *)

Lemma preserves_ret {A} (a : A) : preserves_attrs (ret a : M W A).
Proof. intros st. reflexivity. Qed.

Lemma preserves_raise {A} e : preserves_attrs (raise e : M W A).
Proof. intros st. reflexivity. Qed.

Lemma preserves_bind {A B} (m : M W A) (k : A -> M W B) :
  preserves_attrs m -> (forall a, preserves_attrs (k a)) ->
  preserves_attrs (bind m k).
Proof.
  intros Hm Hk st. unfold bind. specialize (Hm st).
  destruct (m st) as [[a|e] st']; simpl in *.
  - rewrite Hk. exact Hm.
  - exact Hm.
Qed.

Lemma preserves_getattr name : preserves_attrs (getattr name : M W PyObj).
Proof. intros st. unfold getattr. destruct (attrs st !! name); reflexivity. Qed.

Lemma preserves_debug_locals url : preserves_attrs (debug_locals url : M W unit).
Proof. intros st. reflexivity. Qed.

Lemma preserves_call f positional keywords :
  preserves_attrs (call handler f positional keywords).
Proof.
  intros st. unfold call. destruct (handler _ (world st)). reflexivity.
Qed.

Lemma preserves_unpack4 v : preserves_attrs (unpack4 v : M W _).
Proof.
  intros st. unfold unpack4.
  destruct (iterate v) as [[|x1 [|x2 [|x3 [|x4 [|x5 l]]]]]|e]; reflexivity.
Qed.

Create HintDb frame.

#[local] Hint Resolve preserves_ret preserves_raise preserves_getattr
  preserves_debug_locals preserves_call preserves_unpack4 : frame.

Ltac frame :=
  repeat (apply preserves_bind; [auto with frame | intros]);
  auto with frame.

(** C9: no call of [gen_answers] or [judge_answers], on either class,
    changes an attribute of the instance, whether the collaborators return
    or raise: the attribute dictionary after the call is the one before
    it, so every configuration field reads as it did. *)
Theorem methods_preserve_config url :
  preserves_attrs (MTBenchEvaluator_gen_answers handler url)
  /\ preserves_attrs (MTBenchEvaluator_judge_answers handler url)
  /\ preserves_attrs (MTBenchBranchEvaluator_gen_answers handler url)
  /\ preserves_attrs (MTBenchBranchEvaluator_judge_answers handler url).
Proof.
  unfold MTBenchEvaluator_gen_answers, MTBenchEvaluator_judge_answers,
    MTBenchBranchEvaluator_gen_answers, MTBenchBranchEvaluator_judge_answers.
  repeat split; frame.
  match goal with
  | unpacked : (PyObj * PyObj * PyObj * PyObj)%type |- _ =>
      destruct unpacked as [[[? qa_pairs] ?] error_rate]
  end.
  auto with frame.
Qed.

End Methods.

(** * Concrete runs *)

Lemma standard_evaluator_constructed :
  constructs standard_init start (attrs standard_evaluator).
Proof.
  exists standard_evaluator. split; [| reflexivity].
  unfold standard_evaluator, standard_init, standard_with,
    MTBenchEvaluator__init__.
  rewrite init_explicit by reflexivity. reflexivity.
Qed.

Lemma branch_evaluator_constructed :
  constructs branch_init start (attrs branch_evaluator).
Proof.
  exists branch_evaluator. split; [| reflexivity].
  unfold branch_evaluator, branch_init, branch_with.
  rewrite branch_init_unfold, init_explicit by reflexivity. reflexivity.
Qed.

Lemma mock_judgment_contract : judgment_returns_4tuple mock_collaborators.
Proof.
  intros c w v w' Hc. unfold mock_collaborators. rewrite Hc.
  intros [= <- _]. unfold mock_judgment. eauto.
Qed.

(** The budget rule, run: two GPUs on eight cores give 8, one GPU on
    thirty-two cores gives 10, sixteen cores without a GPU hint give 8, and
    four usable cores of eight with one GPU give 4. *)
Example budget_examples :
  let stored (host : Host) (serving_gpus : option Z) :=
    attrs (snd (new (MTBenchEvaluator__init__ host "granite-7b"
                       "prometheus-8x7b" default_output_dir
                       default_max_workers serving_gpus
                       default_merge_system_user_message) start))
      !! "max_workers" in
  stored {| sched_getaffinity := None; cpu_count := 8 |} (Some 2%Z)
    = Some (PyInt 8)
  /\ stored {| sched_getaffinity := None; cpu_count := 32 |} (Some 1%Z)
      = Some (PyInt 10)
  /\ stored host_16_no_affinity None = Some (PyInt 8)
  /\ stored host_4_of_8 (Some 1%Z) = Some (PyInt 4).
Proof. repeat split; vm_compute; reflexivity. Qed.

(** A whole run on the mock collaborators: construction, then
    [gen_answers], then [judge_answers]. *)
Example branch_pipeline :
  let st1 := snd (MTBenchBranchEvaluator_gen_answers mock_collaborators
                    mock_server_url branch_evaluator) in
  let run := MTBenchBranchEvaluator_judge_answers mock_collaborators
               mock_server_url st1 in
  map callee (calls (snd run))
    = [mt_bench_branch_generator_generate;
       mt_bench_answers_generate_answers;
       mt_bench_judgment_generate_judgment]
  /\ world (snd run)
     = ["question.jsonl"; "model_answer.jsonl"; "model_judgment.jsonl"]
  /\ attrs (snd run) = attrs branch_evaluator.
Proof. repeat split; vm_compute; reflexivity. Qed.

(** C1, at the input where it fails: on a single-core host,
    [max_workers = "auto"] without [serving_gpus] completes and stores 0,
    a value the explicit path of the same constructor rejects with
    [InvalidMaxWorkersError]. *)
Theorem auto_single_cpu_stores_zero :
  stores_max_workers
    (MTBenchEvaluator__init__ host_single_cpu "granite-7b" "prometheus-8x7b"
       default_output_dir default_max_workers default_serving_gpus
       default_merge_system_user_message) start (PyInt 0)
  /\ stores_max_workers
       (MTBenchBranchEvaluator__init__ host_single_cpu "granite-7b"
          "prometheus-8x7b" "taxonomy" "main" default_output_dir
          default_max_workers default_serving_gpus
          default_merge_system_user_message) start (PyInt 0)
  /\ construction_raises
       (MTBenchEvaluator__init__ host_single_cpu "granite-7b" "prometheus-8x7b"
          default_output_dir (PyInt 0) default_serving_gpus
          default_merge_system_user_message) start
       (InvalidMaxWorkersError (PyInt 0)).
Proof.
  assert (Hzero : (usable_cpu_count host_single_cpu / 2 = 0)%Z)
    by (vm_compute; reflexivity).
  pose proof (init_auto_no_gpus host_single_cpu "granite-7b" "prometheus-8x7b"
                default_output_dir default_merge_system_user_message start)
    as Hrun.
  cbv zeta in Hrun. rewrite Hzero in Hrun.
  destruct (stores_both _ _ _ "taxonomy" "main" _ _ _ _ _ (PyInt 0) _ Hrun
              (lookup_max_workers_base _ _)) as [Hstd Hbra].
  split; [exact Hstd | split; [exact Hbra |]].
  refine (proj1 (raises_both host_single_cpu _ _ "taxonomy" "main" _ _ _ _ _
                   _ _ (init_invalid _ _ _ _ (PyInt 0) _ _ _ eq_refl eq_refl))).
Qed.

(** ** The claims at concrete inputs *)

Lemma explicit_budget_example :
  (0 < 4)%Z
  /\ stores_max_workers (standard_with (PyInt 4)) start (PyInt 4)
  /\ stores_max_workers (branch_with (PyInt 4)) start (PyInt 4).
Proof.
  assert (Hpos : (0 < 4)%Z) by reflexivity.
  split; [exact Hpos |].
  pose proof (explicit_budget 4 host_4_of_8 "granite-7b" "prometheus-8x7b"
                "taxonomy" "main" default_output_dir (Some 1%Z)
                default_merge_system_user_message start Hpos) as [Hstd _].
  pose proof (explicit_budget 4 host_4_of_8 "granite-7b" "prometheus-8x7b"
                "taxonomy" "main" default_output_dir default_serving_gpus
                default_merge_system_user_message start Hpos) as [_ Hbra].
  split; [exact Hstd | exact Hbra].
Defined.

Ltac not_positive :=
  let n := fresh "n" in
  let Hn := fresh "Hn" in
  let Hpos := fresh "Hpos" in
  intros (n & Hn & Hpos); simpl in Hn;
  first [discriminate Hn | injection Hn as <-; discriminate Hpos].

Lemma invalid_max_workers_examples :
  construction_raises (standard_with (PyInt 0)) start
    (InvalidMaxWorkersError (PyInt 0))
  /\ construction_raises (standard_with (PyInt (-1))) start
       (InvalidMaxWorkersError (PyInt (-1)))
  /\ construction_raises (standard_with (PyStr "3")) start
       (InvalidMaxWorkersError (PyStr "3"))
  /\ construction_raises (standard_with PyNone) start
       (InvalidMaxWorkersError PyNone)
  /\ construction_raises (branch_with (PyBool false)) start
       (InvalidMaxWorkersError (PyBool false)).
Proof.
  pose (claim mw :=
    invalid_max_workers host_4_of_8 "granite-7b" "prometheus-8x7b"
      "taxonomy" "main" default_output_dir mw (Some 1%Z)
      default_merge_system_user_message start (InvalidMaxWorkersError mw)).
  pose (claim' mw :=
    invalid_max_workers host_4_of_8 "granite-7b" "prometheus-8x7b"
      "taxonomy" "main" default_output_dir mw default_serving_gpus
      default_merge_system_user_message start (InvalidMaxWorkersError mw)).
  repeat split.
  - apply (proj1 (claim (PyInt 0))).
    split; [reflexivity | split; [discriminate | not_positive]].
  - apply (proj1 (claim (PyInt (-1)))).
    split; [reflexivity | split; [discriminate | not_positive]].
  - apply (proj1 (claim (PyStr "3"))).
    split; [reflexivity | split; [discriminate | not_positive]].
  - apply (proj1 (claim PyNone)).
    split; [reflexivity | split; [discriminate | not_positive]].
  - apply (proj2 (claim' (PyBool false))).
    split; [reflexivity | split; [discriminate | not_positive]].
Defined.

(** C2, at the input where the code departs from it: the constructed
    [MTBenchEvaluator] hands back what the judgment collaborator returned,
    the 4-tuple with [error_rate] in it, where the docstring of
    [judge_answers] promises the three values overall_score, qa_pairs and
    turn_scores. *)
Lemma standard_judge_answers_not_a_triple :
  judgment_returns_4tuple mock_collaborators
  /\ constructs standard_init start (attrs standard_evaluator)
  /\ fst (MTBenchEvaluator_judge_answers mock_collaborators mock_server_url
            standard_evaluator) = Ok mock_judgment
  /\ ~ (exists overall_score qa_pairs turn_scores,
          mock_judgment = PyTuple [overall_score; qa_pairs; turn_scores]).
Proof.
  split; [exact mock_judgment_contract |].
  split; [exact standard_evaluator_constructed |].
  split.
  - vm_compute. reflexivity.
  - intros (a & b & c & Habs). discriminate Habs.
Qed.

Lemma standard_judge_answers_example :
  constructs standard_init start (attrs standard_evaluator)
  /\ fst (MTBenchEvaluator_judge_answers mock_collaborators mock_server_url
            standard_evaluator) = Ok mock_judgment
  /\ exists overall_score qa_pairs turn_scores error_rate,
       mock_judgment
       = PyTuple [overall_score; qa_pairs; turn_scores; error_rate].
Proof.
  pose proof standard_evaluator_constructed as Hself.
  destruct (standard_judge_answers_passthrough mock_collaborators host_4_of_8
              "granite-7b" "prometheus-8x7b" default_output_dir (PyInt 4)
              (Some 1%Z) default_merge_system_user_message start
              standard_evaluator mock_server_url Hself)
    as (v & Hv & Hfst & Hcalls & Hshape).
  split; [exact Hself |].
  split; [exact Hfst |].
  exact (Hshape mock_judgment_contract mock_judgment Hfst).
Defined.

Lemma branch_judge_answers_example :
  constructs branch_init start (attrs branch_evaluator)
  /\ fst (MTBenchBranchEvaluator_judge_answers mock_collaborators
            mock_server_url branch_evaluator)
     = Ok (PyTuple [PyList [PyDict [(PyStr "question_id", PyInt 81);
                                    (PyStr "score", PyInt 8)]];
                    PyFloat 0]).
Proof.
  pose proof branch_evaluator_constructed as Hself.
  destruct (branch_judge_answers_pair mock_collaborators host_4_of_8
              "granite-7b" "prometheus-8x7b" "taxonomy" "main"
              default_output_dir (PyInt 4) default_serving_gpus
              default_merge_system_user_message start
              branch_evaluator mock_server_url Hself)
    as (v & Hv & Hcalls & Hpair & Hshape).
  split; [exact Hself |].
  exact (Hpair _ _ _ _ eq_refl).
Defined.

Lemma branch_gen_answers_example :
  constructs branch_init start (attrs branch_evaluator)
  /\ fst (MTBenchBranchEvaluator_gen_answers mock_collaborators
            mock_server_url branch_evaluator) = Ok PyNone
  /\ calls (snd (MTBenchBranchEvaluator_gen_answers mock_collaborators
                   mock_server_url branch_evaluator))
     = [materialization_call (PyStr "prometheus-8x7b") (PyStr "main")
          (PyStr "taxonomy") (PyStr "eval_output");
        branch_generation_call (PyStr "granite-7b") mock_server_url
          (PyStr "main") (PyStr "eval_output") (PyInt 4)]
  /\ world (snd (MTBenchBranchEvaluator_gen_answers mock_collaborators
                   mock_server_url branch_evaluator))
     = ["question.jsonl"; "model_answer.jsonl"].
Proof.
  pose proof branch_evaluator_constructed as Hself.
  destruct (branch_gen_answers_order mock_collaborators host_4_of_8
              "granite-7b" "prometheus-8x7b" "taxonomy" "main"
              default_output_dir (PyInt 4) default_serving_gpus
              default_merge_system_user_message start
              branch_evaluator mock_server_url Hself)
    as (v & Hv & Hfst & Hcalls & Hworld).
  assert (Hmw : attrs branch_evaluator !! "max_workers" = Some (PyInt 4))
    by (vm_compute; reflexivity).
  rewrite Hmw in Hv. injection Hv as <-.
  split; [exact Hself |].
  split; [exact Hfst |].
  split; [exact Hcalls | exact Hworld].
Defined.

(** * Further properties of construction *)

Section ConstructionCoverage.

Context {W : Type}.

Lemma usable_cpu_count_nonneg host : (0 <= usable_cpu_count host)%Z.
Proof. unfold usable_cpu_count. destruct (sched_getaffinity host); lia. Qed.

(** The whole outcome of the base constructor, path by path. *)
Lemma init_outcome host mn jmn od mw sg m (st : State W) :
  new (AbstractMTBenchEvaluator__init__ host mn jmn od mw sg m) st
  = if eq_str mw "auto" then
      let v := PyInt (auto_value sg (usable_cpu_count host)) in
      (Ok tt,
       {| attrs := <["max_workers" := v]> (common_attrs mn jmn od sg m);
          world := world st; calls := calls st;
          logs := logs st ++ [Debug (init_log_message mw sg) [v]] |})
    else if isinstance_int mw && gt_zero mw then
      (Ok tt,
       {| attrs := <["max_workers" := mw]> (common_attrs mn jmn od sg m);
          world := world st; calls := calls st;
          logs := logs st ++ [Debug (init_log_message mw sg) [mw]] |})
    else
      (Raise (InvalidMaxWorkersError mw),
       {| attrs := common_attrs mn jmn od sg m;
          world := world st; calls := calls st; logs := logs st |}).
Proof.
  unfold init_log_message.
  destruct (eq_str mw "auto") eqn:Hauto.
  - apply eq_str_true in Hauto. subst mw.
    destruct sg as [gpus|]; [apply init_auto_gpus | apply init_auto_no_gpus].
  - destruct (isinstance_int mw && gt_zero mw) eqn:Hpos.
    + by apply init_explicit.
    + by apply init_invalid.
Qed.

Lemma constructs_base_inv host mn jmn od mw sg m (st : State W) self :
  constructs (AbstractMTBenchEvaluator__init__ host mn jmn od mw sg m) st self ->
  self = <["max_workers" := stored_value host mw sg]>
           (common_attrs mn jmn od sg m)
  /\ (eq_str mw "auto" = true \/ positive_int mw).
Proof.
  intros (st' & Hrun & <-). rewrite init_outcome in Hrun.
  unfold stored_value.
  destruct (eq_str mw "auto").
  - injection Hrun as <-. auto.
  - destruct (isinstance_int mw && gt_zero mw) eqn:Hpos; [| discriminate].
    injection Hrun as <-. apply positive_int_check in Hpos. auto.
Qed.

Lemma constructs_branch_inv host mn jmn tax br od mw sg m (st : State W) self :
  constructs (MTBenchBranchEvaluator__init__ host mn jmn tax br od mw sg m)
    st self ->
  self = <["branch" := PyStr br]>
           (<["taxonomy_git_repo_path" := PyStr tax]>
              (<["max_workers" := stored_value host mw sg]>
                 (common_attrs mn jmn od sg m)))
  /\ (eq_str mw "auto" = true \/ positive_int mw).
Proof.
  intros (st' & Hrun & <-). rewrite branch_init_unfold in Hrun.
  destruct (new (AbstractMTBenchEvaluator__init__ host mn jmn od mw sg m) st)
    as [[[]|e] a] eqn:Hbase; [| discriminate].
  injection Hrun as <-. simpl.
  destruct (constructs_base_inv host mn jmn od mw sg m st (attrs a))
    as [-> Hmw]; [exists a; auto | auto].
Qed.

Lemma dom_base_attrs v mn jmn od sg m :
  dom (<["max_workers" := v]> (common_attrs mn jmn od sg m)) = base_attr_names.
Proof.
  unfold common_attrs, base_attr_names.
  rewrite !dom_insert_L, dom_empty_L. simpl. set_solver.
Qed.

(** X1: a completed [MTBenchEvaluator(...)] holds exactly the six
    attributes of the base constructor, and the five that are not
    [max_workers] read back the arguments as they were passed. *)
Theorem standard_instance_attributes host mn jmn od mw sg m (st : State W) self :
  constructs (MTBenchEvaluator__init__ host mn jmn od mw sg m) st self ->
  self !! "model_name" = Some (PyStr mn)
  /\ self !! "judge_model_name" = Some (PyStr jmn)
  /\ self !! "output_dir" = Some (PyStr od)
  /\ self !! "serving_gpus" = Some (of_optional_int sg)
  /\ self !! "merge_system_user_message" = Some (PyBool m)
  /\ dom self = base_attr_names.
Proof.
  intros Hself. apply constructs_base_inv in Hself as [-> _].
  split_and!;
    first [apply dom_base_attrs | unfold common_attrs; by simplify_map_eq].
Qed.

(** X2: a completed [MTBenchBranchEvaluator(...)] holds the six base
    attributes and, on top, [taxonomy_git_repo_path] and [branch] as
    passed; it holds nothing else. *)
Theorem branch_instance_attributes host mn jmn tax br od mw sg m
    (st : State W) self :
  constructs (MTBenchBranchEvaluator__init__ host mn jmn tax br od mw sg m)
    st self ->
  self !! "model_name" = Some (PyStr mn)
  /\ self !! "judge_model_name" = Some (PyStr jmn)
  /\ self !! "taxonomy_git_repo_path" = Some (PyStr tax)
  /\ self !! "branch" = Some (PyStr br)
  /\ self !! "output_dir" = Some (PyStr od)
  /\ self !! "serving_gpus" = Some (of_optional_int sg)
  /\ self !! "merge_system_user_message" = Some (PyBool m)
  /\ dom self = branch_attr_names.
Proof.
  intros Hself. apply constructs_branch_inv in Hself as [-> _].
  split_and!;
    first [unfold common_attrs; by simplify_map_eq
          | rewrite !dom_insert_L, dom_base_attrs; unfold branch_attr_names;
            simpl; set_solver].
Qed.

(** X3: construction, of either class and whether it completes or
    raises, calls no collaborator and leaves their world untouched. *)
Theorem construction_calls_nothing host mn jmn tax br od mw sg m (st : State W) :
  let std := new (MTBenchEvaluator__init__ host mn jmn od mw sg m) st in
  let bra :=
    new (MTBenchBranchEvaluator__init__ host mn jmn tax br od mw sg m) st in
  calls (snd std) = calls st /\ world (snd std) = world st
  /\ calls (snd bra) = calls st /\ world (snd bra) = world st.
Proof.
  intros std bra. subst std bra.
  rewrite branch_init_unfold. unfold MTBenchEvaluator__init__.
  rewrite init_outcome.
  destruct (eq_str mw "auto"); [| destruct (isinstance_int mw && gt_zero mw)];
    simpl; auto.
Qed.

(** X4: a construction that completes appends exactly one debug record,
    whose format string names the path taken and whose parameter is the
    stored [max_workers]; a construction that raises logs nothing. *)
Theorem construction_log host mn jmn tax br od mw sg m (st : State W) :
  match new (MTBenchEvaluator__init__ host mn jmn od mw sg m) st with
  | (Ok _, st') =>
      exists v, attrs st' !! "max_workers" = Some v
        /\ logs st' = logs st ++ [Debug (init_log_message mw sg) [v]]
  | (Raise _, st') => logs st' = logs st
  end
  /\ match new (MTBenchBranchEvaluator__init__ host mn jmn tax br od mw sg m) st
     with
     | (Ok _, st') =>
         exists v, attrs st' !! "max_workers" = Some v
           /\ logs st' = logs st ++ [Debug (init_log_message mw sg) [v]]
     | (Raise _, st') => logs st' = logs st
     end.
Proof.
  rewrite branch_init_unfold. unfold MTBenchEvaluator__init__.
  rewrite init_outcome.
  destruct (eq_str mw "auto"); [| destruct (isinstance_int mw && gt_zero mw)];
    cbv zeta; simpl; split; auto;
    eexists; (split; [by simplify_map_eq | reflexivity]).
Qed.

Lemma auto_both_store host mn jmn tax br od sg m (st : State W) :
  both_store host mn jmn tax br od (PyStr "auto") sg m st
    (PyInt (auto_value sg (usable_cpu_count host))).
Proof.
  unfold both_store. eapply stores_both.
  - rewrite init_outcome. reflexivity.
  - apply lookup_max_workers_base.
Qed.

(** X5: the budget derived on the auto path is never negative and never
    above the usable CPU count; with [serving_gpus] given it is at most
    ten per GPU (one GPU at least), without it at most half the usable
    CPU count. *)
Theorem auto_budget_bounds host mn jmn tax br od sg m (st : State W) :
  exists n : Z,
    both_store host mn jmn tax br od (PyStr "auto") sg m st (PyInt n)
    /\ (0 <= n <= usable_cpu_count host)%Z
    /\ match sg with
       | Some gpus => (n <= Z.max gpus 1 * 10)%Z
       | None => (2 * n <= usable_cpu_count host)%Z
       end.
Proof.
  exists (auto_value sg (usable_cpu_count host)).
  split; [apply auto_both_store |].
  pose proof (usable_cpu_count_nonneg host) as Hc.
  unfold auto_value. destruct sg as [gpus|].
  - lia.
  - pose proof (Z.div_mod (usable_cpu_count host) 2 ltac:(lia)) as Hdiv.
    pose proof (Z.mod_pos_bound (usable_cpu_count host) 2 ltac:(lia)) as Hmod.
    lia.
Qed.

(** X6: whatever a completed construction stores as [max_workers] is an
    [int]-typed value that is not negative and is not the string "auto";
    it is zero exactly when it was derived on the auto path from a usable
    CPU count below 1 (with [serving_gpus]) or below 2 (without). *)
Theorem stored_max_workers_sign host mn jmn tax br od mw sg m (st : State W) v :
  stores_max_workers (MTBenchEvaluator__init__ host mn jmn od mw sg m) st v
  \/ stores_max_workers
       (MTBenchBranchEvaluator__init__ host mn jmn tax br od mw sg m) st v ->
  v <> PyStr "auto"
  /\ exists n : Z,
       int_value v = Some n
       /\ (0 <= n)%Z
       /\ (n = 0%Z <->
           mw = PyStr "auto"
           /\ (usable_cpu_count host
                < match sg with Some _ => 1 | None => 2 end)%Z).
Proof.
  intros Hstores.
  assert (Hv : v = stored_value host mw sg
               /\ (eq_str mw "auto" = true \/ positive_int mw)).
  { destruct Hstores as [(self & Hself & Hmw) | (self & Hself & Hmw)].
    - apply constructs_base_inv in Hself as [-> Hpos].
      rewrite lookup_max_workers_base in Hmw. injection Hmw as <-. auto.
    - apply constructs_branch_inv in Hself as [-> Hpos].
      rewrite lookup_max_workers_branch in Hmw. injection Hmw as <-. auto. }
  destruct Hv as [-> Hmw]. unfold stored_value.
  pose proof (usable_cpu_count_nonneg host) as Hc.
  destruct (eq_str mw "auto") eqn:Hauto.
  - apply eq_str_true in Hauto. subst mw. split; [discriminate |].
    exists (auto_value sg (usable_cpu_count host)).
    split; [reflexivity |]. unfold auto_value. destruct sg as [gpus|].
    + split; [lia |]. split; [intros Hz; split; [reflexivity | lia] | lia].
    + pose proof (Z.div_mod (usable_cpu_count host) 2 ltac:(lia)) as Hdiv.
      pose proof (Z.mod_pos_bound (usable_cpu_count host) 2 ltac:(lia)) as Hmod.
      split; [lia |]. split; [intros Hz; split; [reflexivity | lia] | lia].
  - destruct Hmw as [Habs | (n & Hn & Hpos)]; [discriminate |].
    apply eq_str_false in Hauto. split; [exact Hauto |].
    exists n. split; [exact Hn |]. split; [lia |].
    split; [lia | intros [Habs _]; contradiction].
Qed.

(** X7: on the auto path the budget never shrinks when the host offers
    more usable CPUs or when more serving GPUs are announced. *)
Theorem auto_budget_monotone host host' mn jmn tax br od (gpus gpus' : Z) m
    (st : State W) :
  (usable_cpu_count host <= usable_cpu_count host')%Z ->
  (gpus <= gpus')%Z ->
  (exists n n' : Z,
      both_store host mn jmn tax br od (PyStr "auto") (Some gpus) m st (PyInt n)
      /\ both_store host' mn jmn tax br od (PyStr "auto") (Some gpus') m st
           (PyInt n')
      /\ (n <= n')%Z)
  /\ (exists n n' : Z,
        both_store host mn jmn tax br od (PyStr "auto") None m st (PyInt n)
        /\ both_store host' mn jmn tax br od (PyStr "auto") None m st (PyInt n')
        /\ (n <= n')%Z).
Proof.
  intros Hc Hg. split.
  - exists (auto_value (Some gpus) (usable_cpu_count host)),
           (auto_value (Some gpus') (usable_cpu_count host')).
    split; [apply auto_both_store | split; [apply auto_both_store |]].
    unfold auto_value. lia.
  - exists (auto_value None (usable_cpu_count host)),
           (auto_value None (usable_cpu_count host')).
    split; [apply auto_both_store | split; [apply auto_both_store |]].
    unfold auto_value. apply Z.div_le_mono; lia.
Qed.

(** X8: the host matters to construction only through its usable CPU
    count, and not at all when [max_workers] is explicit: on two hosts
    with the same usable CPU count, or with any explicit value, the
    outcome is the same, final state included. *)
Theorem construction_host_dependence host host' mn jmn tax br od mw sg m
    (st : State W) :
  mw <> PyStr "auto" \/ usable_cpu_count host = usable_cpu_count host' ->
  new (MTBenchEvaluator__init__ host mn jmn od mw sg m) st
  = new (MTBenchEvaluator__init__ host' mn jmn od mw sg m) st
  /\ new (MTBenchBranchEvaluator__init__ host mn jmn tax br od mw sg m) st
     = new (MTBenchBranchEvaluator__init__ host' mn jmn tax br od mw sg m) st.
Proof.
  intros Hsame.
  assert (Hbase :
    new (AbstractMTBenchEvaluator__init__ host mn jmn od mw sg m) st
    = new (AbstractMTBenchEvaluator__init__ host' mn jmn od mw sg m) st).
  { rewrite !init_outcome. destruct (eq_str mw "auto") eqn:Hauto; [| reflexivity].
    destruct Hsame as [Hne | ->]; [| reflexivity].
    apply eq_str_true in Hauto. contradiction. }
  split; [exact Hbase |].
  rewrite !branch_init_unfold, Hbase. reflexivity.
Qed.

End ConstructionCoverage.

(** * Further properties of the methods *)

Section MethodsCoverage.

Context {W : Type}.
Variable handler : Call -> W -> result PyObj * W.

Ltac step_method :=
  cbv [MTBenchEvaluator_gen_answers bind getattr debug_locals log call ret
       attrs world calls logs];
  repeat (match goal with
          | H : _ !! _ = Some _ |- _ => rewrite H
          end;
          cbv [bind getattr debug_locals log call ret
               attrs world calls logs]).

Lemma standard_gen_answers_run (st : State W) url mn mw od :
  attrs st !! "model_name" = Some mn ->
  attrs st !! "output_dir" = Some od ->
  attrs st !! "max_workers" = Some mw ->
  MTBenchEvaluator_gen_answers handler url st
  = let c := standard_generation_call mn url od mw in
    (match fst (handler c (world st)) with
     | Ok _ => Ok PyNone
     | Raise e => Raise e
     end,
     {| attrs := attrs st; world := snd (handler c (world st));
        calls := calls st ++ [c];
        logs := logs st ++ [DebugLocals (attrs st) url] |}).
Proof.
  intros Hmn Hod Hmw. destruct st as [a w0 cs ls]; simpl in *.
  step_method. unfold standard_generation_call.
  destruct (handler _ w0) as [[r|e] w]; reflexivity.
Qed.

(** X9: [MTBenchEvaluator.gen_answers] makes exactly one call, answer
    generation with (model_name, server_url, output_dir=, max_workers=)
    and no branch, data_dir or bench_name keyword; it returns [None]
    whatever that call returned, raises what it raised, and leaves the
    world as that call left it. *)
Theorem standard_gen_answers_call host mn jmn od mw sg m (st0 st : State W) url :
  constructs (MTBenchEvaluator__init__ host mn jmn od mw sg m) st0 (attrs st) ->
  exists v,
    attrs st !! "max_workers" = Some v
    /\ let c := standard_generation_call (PyStr mn) url (PyStr od) v in
       let run := MTBenchEvaluator_gen_answers handler url st in
       fst run = match fst (handler c (world st)) with
                 | Ok _ => Ok PyNone
                 | Raise e => Raise e
                 end
       /\ calls (snd run) = calls st ++ [c]
       /\ world (snd run) = snd (handler c (world st)).
Proof.
  intros Hself.
  destruct (constructs_standard_attrs _ _ _ _ _ _ _ _ _ Hself) as [v Hattrs].
  destruct (standard_lookups v mn jmn od sg m)
    as (Hmn & Hjmn & Hmw & Hod & Hms).
  rewrite <- Hattrs in Hmn, Hjmn, Hmw, Hod, Hms.
  exists v. split; [exact Hmw |].
  intros c run. subst run.
  rewrite (standard_gen_answers_run st url _ _ _ Hmn Hod Hmw).
  fold c. simpl. auto.
Qed.

(** X10: when the judgment call of [MTBenchBranchEvaluator.judge_answers]
    raises, the method raises the same exception; when it returns a tuple
    that does not have four components the unpacking raises [ValueError],
    and when it returns [None] it raises [TypeError].  In each case the
    call has been made: the world is the one it left. *)
Theorem branch_judge_answers_failures host mn jmn tax br od mw sg m
    (st0 st : State W) url :
  constructs (MTBenchBranchEvaluator__init__ host mn jmn tax br od mw sg m)
    st0 (attrs st) ->
  exists v,
    attrs st !! "max_workers" = Some v
    /\ let c := branch_judgment_call (PyStr mn) (PyStr jmn) url (PyStr br) v
                  (PyStr od) (PyBool m) in
       let run := MTBenchBranchEvaluator_judge_answers handler url st in
       world (snd run) = snd (handler c (world st))
       /\ (forall e, fst (handler c (world st)) = Raise e -> fst run = Raise e)
       /\ (forall items,
             fst (handler c (world st)) = Ok (PyTuple items) ->
             length items <> 4%nat ->
             fst run = Raise ValueError)
       /\ (fst (handler c (world st)) = Ok PyNone -> fst run = Raise TypeError).
Proof.
  intros Hself.
  destruct (constructs_branch_attrs _ _ _ _ _ _ _ _ _ _ _ Hself) as [v Hattrs].
  destruct (branch_lookups v mn jmn tax br od sg m)
    as (Hmn & Hjmn & Htax & Hbr & Hmw & Hod & Hms).
  rewrite <- Hattrs in Hmn, Hjmn, Htax, Hbr, Hmw, Hod, Hms.
  exists v. split; [exact Hmw |].
  intros c run. subst run.
  rewrite (branch_judge_answers_run handler st url _ _ _ _ _ _
             Hmn Hjmn Hbr Hmw Hod Hms).
  fold c. cbv zeta.
  destruct (handler c (world st)) as [[judgment|e] w']; simpl.
  - split_and!.
    + destruct (iterate judgment)
        as [[|x1 [|x2 [|x3 [|x4 [|x5 l]]]]]|e]; reflexivity.
    + discriminate.
    + intros items [= ->] Hlen. simpl.
      destruct items as [|x1 [|x2 [|x3 [|x4 [|x5 l]]]]]; try reflexivity.
      contradiction Hlen. reflexivity.
    + intros [= ->]. reflexivity.
  - split_and!; try discriminate; auto.
Qed.

(** X11: [gen_answers] followed by [judge_answers] on one
    [MTBenchEvaluator]: when generation returns, the two calls are
    generation then judgment, both with the stored [max_workers] and
    [output_dir]; judgment runs on the world generation left, each call
    gets the endpoint of its own method, and the result is judgment's. *)
Theorem standard_pipeline host mn jmn od mw sg m (st0 st : State W)
    url_model url_judge :
  constructs (MTBenchEvaluator__init__ host mn jmn od mw sg m) st0 (attrs st) ->
  exists v,
    attrs st !! "max_workers" = Some v
    /\ let c1 := standard_generation_call (PyStr mn) url_model (PyStr od) v in
       let c2 := standard_judgment_call (PyStr mn) (PyStr jmn) url_judge v
                   (PyStr od) (PyBool m) in
       forall r1 w1,
         handler c1 (world st) = (Ok r1, w1) ->
         let run :=
           MTBenchEvaluator_judge_answers handler url_judge
             (snd (MTBenchEvaluator_gen_answers handler url_model st)) in
         fst run = fst (handler c2 w1)
         /\ calls (snd run) = calls st ++ [c1; c2]
         /\ world (snd run) = snd (handler c2 w1)
         /\ attrs (snd run) = attrs st.
Proof.
  intros Hself.
  destruct (constructs_standard_attrs _ _ _ _ _ _ _ _ _ Hself) as [v Hattrs].
  destruct (standard_lookups v mn jmn od sg m)
    as (Hmn & Hjmn & Hmw & Hod & Hms).
  rewrite <- Hattrs in Hmn, Hjmn, Hmw, Hod, Hms.
  exists v. split; [exact Hmw |].
  intros c1 c2 r1 w1 Hgen run. subst run c1 c2.
  rewrite (standard_gen_answers_run st url_model _ _ _ Hmn Hod Hmw).
  cbv zeta. rewrite Hgen. cbn [fst snd].
  match goal with
  | |- context [MTBenchEvaluator_judge_answers handler url_judge ?s] =>
      rewrite (standard_judge_answers_run handler s url_judge _ _ _ _ _
                 Hmn Hjmn Hmw Hod Hms)
  end.
  cbv zeta. cbn [fst snd attrs world calls logs].
  rewrite <- app_assoc. auto.
Qed.

(** X12: [gen_answers] followed by [judge_answers] on one
    [MTBenchBranchEvaluator]: when materialization and generation return,
    the calls are materialization, generation, judgment in that order,
    each on the world the one before left, and generation and judgment
    carry the same branch, output_dir, data_dir, bench_name and
    max_workers; a 4-tuple from judgment comes back as (qa_pairs,
    error_rate). *)
Theorem branch_pipeline_order host mn jmn tax br od mw sg m (st0 st : State W)
    url_model url_judge :
  constructs (MTBenchBranchEvaluator__init__ host mn jmn tax br od mw sg m)
    st0 (attrs st) ->
  exists v,
    attrs st !! "max_workers" = Some v
    /\ let c1 := materialization_call (PyStr jmn) (PyStr br) (PyStr tax)
                   (PyStr od) in
       let c2 := branch_generation_call (PyStr mn) url_model (PyStr br)
                   (PyStr od) v in
       let c3 := branch_judgment_call (PyStr mn) (PyStr jmn) url_judge
                   (PyStr br) v (PyStr od) (PyBool m) in
       forall r1 w1 r2 w2,
         handler c1 (world st) = (Ok r1, w1) ->
         handler c2 w1 = (Ok r2, w2) ->
         let run :=
           MTBenchBranchEvaluator_judge_answers handler url_judge
             (snd (MTBenchBranchEvaluator_gen_answers handler url_model st)) in
         calls (snd run) = calls st ++ [c1; c2; c3]
         /\ world (snd run) = snd (handler c3 w2)
         /\ attrs (snd run) = attrs st
         /\ (forall overall_score qa_pairs turn_scores error_rate,
               fst (handler c3 w2)
               = Ok (PyTuple [overall_score; qa_pairs; turn_scores; error_rate]) ->
               fst run = Ok (PyTuple [qa_pairs; error_rate])).
Proof.
  intros Hself.
  destruct (constructs_branch_attrs _ _ _ _ _ _ _ _ _ _ _ Hself) as [v Hattrs].
  destruct (branch_lookups v mn jmn tax br od sg m)
    as (Hmn & Hjmn & Htax & Hbr & Hmw & Hod & Hms).
  rewrite <- Hattrs in Hmn, Hjmn, Htax, Hbr, Hmw, Hod, Hms.
  exists v. split; [exact Hmw |].
  intros c1 c2 c3 r1 w1 r2 w2 Hmat Hgen run. subst run c1 c2 c3.
  rewrite (branch_gen_answers_run handler st url_model _ _ _ _ _ _
             Hmn Hjmn Htax Hbr Hmw Hod).
  cbv zeta. rewrite Hmat. cbn [fst snd]. rewrite Hgen.
  cbn [fst snd].
  match goal with
  | |- context [MTBenchBranchEvaluator_judge_answers handler url_judge ?s] =>
      rewrite (branch_judge_answers_run handler s url_judge _ _ _ _ _ _
                 Hmn Hjmn Hbr Hmw Hod Hms)
  end.
  cbv zeta. cbn [attrs world calls logs].
  destruct (handler _ w2) as [[judgment|e] w3]; cbn [fst snd].
  - split_and!.
    + destruct (iterate judgment)
        as [[|x1 [|x2 [|x3 [|x4 [|x5 l]]]]]|e];
        cbn [snd calls]; rewrite <- !app_assoc; reflexivity.
    + destruct (iterate judgment)
        as [[|x1 [|x2 [|x3 [|x4 [|x5 l]]]]]|e]; reflexivity.
    + destruct (iterate judgment)
        as [[|x1 [|x2 [|x3 [|x4 [|x5 l]]]]]|e]; reflexivity.
    + intros os qa ts er [= ->]. reflexivity.
  - split_and!; try reflexivity.
    + cbn [snd calls]. rewrite <- !app_assoc. reflexivity.
    + discriminate.
Qed.

(** ** What the methods log *)

Lemma keeps_logs_ret {A} (a : A) : keeps_logs (ret a : M W A).
Proof. intros st. reflexivity. Qed.

Lemma keeps_logs_bind {A B} (m : M W A) (k : A -> M W B) :
  keeps_logs m -> (forall a, keeps_logs (k a)) -> keeps_logs (bind m k).
Proof.
  intros Hm Hk st. unfold bind. specialize (Hm st).
  destruct (m st) as [[a|e] st']; simpl in *.
  - rewrite Hk. exact Hm.
  - exact Hm.
Qed.

Lemma keeps_logs_getattr name : keeps_logs (getattr name : M W PyObj).
Proof. intros st. unfold getattr. destruct (attrs st !! name); reflexivity. Qed.

Lemma keeps_logs_call f positional keywords :
  keeps_logs (call handler f positional keywords).
Proof.
  intros st. unfold call. destruct (handler _ (world st)). reflexivity.
Qed.

Lemma keeps_logs_unpack4 v : keeps_logs (unpack4 v : M W _).
Proof.
  intros st. unfold unpack4.
  destruct (iterate v) as [[|x1 [|x2 [|x3 [|x4 [|x5 l]]]]]|e]; reflexivity.
Qed.

(** A method that starts with [logger.debug(locals())] and logs nothing
    afterwards leaves exactly that record. *)
Lemma logs_locals_once {A} url (rest : M W A) :
  keeps_logs rest ->
  forall st,
    logs (snd (bind (debug_locals url) (fun _ => rest) st))
    = logs st ++ [DebugLocals (attrs st) url].
Proof.
  intros Hrest st. unfold bind, debug_locals, log. rewrite Hrest. reflexivity.
Qed.

Create HintDb logging.

#[local] Hint Resolve keeps_logs_ret keeps_logs_getattr keeps_logs_call
  keeps_logs_unpack4 : logging.

Ltac logging :=
  repeat (apply keeps_logs_bind; [auto with logging | intros]);
  auto with logging.

(** X13: every call of [gen_answers] or [judge_answers], on either class
    and however it ends, appends exactly one record to the debug log: the
    method's locals ([self] and [server_url]) as they are on entry. *)
Theorem methods_log_locals_once url (st : State W) :
  let entry := logs st ++ [DebugLocals (attrs st) url] in
  logs (snd (MTBenchEvaluator_gen_answers handler url st)) = entry
  /\ logs (snd (MTBenchEvaluator_judge_answers handler url st)) = entry
  /\ logs (snd (MTBenchBranchEvaluator_gen_answers handler url st)) = entry
  /\ logs (snd (MTBenchBranchEvaluator_judge_answers handler url st)) = entry.
Proof.
  intros entry. subst entry.
  unfold MTBenchEvaluator_gen_answers, MTBenchEvaluator_judge_answers,
    MTBenchBranchEvaluator_gen_answers, MTBenchBranchEvaluator_judge_answers.
  split_and!; apply logs_locals_once; logging.
  match goal with
  | unpacked : (PyObj * PyObj * PyObj * PyObj)%type |- _ =>
      destruct unpacked as [[[? qa_pairs] ?] error_rate]
  end.
  auto with logging.
Qed.

End MethodsCoverage.

(** ** The further properties at concrete inputs *)

Lemma standard_instance_attributes_example :
  constructs standard_init start (attrs standard_evaluator)
  /\ attrs standard_evaluator !! "model_name" = Some (PyStr "granite-7b")
  /\ attrs standard_evaluator !! "judge_model_name"
     = Some (PyStr "prometheus-8x7b")
  /\ attrs standard_evaluator !! "output_dir" = Some (PyStr "eval_output")
  /\ attrs standard_evaluator !! "serving_gpus" = Some (PyInt 1)
  /\ attrs standard_evaluator !! "merge_system_user_message"
     = Some (PyBool false)
  /\ dom (attrs standard_evaluator) = base_attr_names.
Proof.
  pose proof standard_evaluator_constructed as Hself.
  split; [exact Hself |].
  exact (standard_instance_attributes host_4_of_8 "granite-7b"
           "prometheus-8x7b" default_output_dir (PyInt 4) (Some 1%Z)
           default_merge_system_user_message start
           (attrs standard_evaluator) Hself).
Defined.

Lemma branch_instance_attributes_example :
  constructs branch_init start (attrs branch_evaluator)
  /\ attrs branch_evaluator !! "model_name" = Some (PyStr "granite-7b")
  /\ attrs branch_evaluator !! "judge_model_name"
     = Some (PyStr "prometheus-8x7b")
  /\ attrs branch_evaluator !! "taxonomy_git_repo_path"
     = Some (PyStr "taxonomy")
  /\ attrs branch_evaluator !! "branch" = Some (PyStr "main")
  /\ attrs branch_evaluator !! "output_dir" = Some (PyStr "eval_output")
  /\ attrs branch_evaluator !! "serving_gpus" = Some PyNone
  /\ attrs branch_evaluator !! "merge_system_user_message"
     = Some (PyBool false)
  /\ dom (attrs branch_evaluator) = branch_attr_names.
Proof.
  pose proof branch_evaluator_constructed as Hself.
  split; [exact Hself |].
  exact (branch_instance_attributes host_4_of_8 "granite-7b"
           "prometheus-8x7b" "taxonomy" "main" default_output_dir (PyInt 4)
           default_serving_gpus default_merge_system_user_message start
           (attrs branch_evaluator) Hself).
Defined.

Lemma single_cpu_auto_stores_zero :
  stores_max_workers
    (MTBenchEvaluator__init__ host_single_cpu "granite-7b" "prometheus-8x7b"
       default_output_dir default_max_workers default_serving_gpus
       default_merge_system_user_message) start (PyInt 0).
Proof.
  assert (Hzero : auto_value None (usable_cpu_count host_single_cpu) = 0%Z)
    by (vm_compute; reflexivity).
  rewrite <- Hzero.
  exact (proj1 (auto_both_store host_single_cpu "granite-7b" "prometheus-8x7b"
                  "taxonomy" "main" default_output_dir default_serving_gpus
                  default_merge_system_user_message start)).
Qed.

Lemma stored_max_workers_sign_example :
  PyInt 0 <> PyStr "auto"
  /\ exists n : Z,
       int_value (PyInt 0) = Some n
       /\ (0 <= n)%Z
       /\ (n = 0%Z <->
           default_max_workers = PyStr "auto"
           /\ (usable_cpu_count host_single_cpu < 2)%Z).
Proof.
  exact (stored_max_workers_sign host_single_cpu "granite-7b"
           "prometheus-8x7b" "taxonomy" "main" default_output_dir
           default_max_workers default_serving_gpus
           default_merge_system_user_message start (PyInt 0)
           (or_introl single_cpu_auto_stores_zero)).
Defined.

Lemma auto_budget_monotone_example :
  exists n n' : Z,
    both_store host_4_of_8 "granite-7b" "prometheus-8x7b" "taxonomy" "main"
      default_output_dir (PyStr "auto") (Some 1%Z) false start (PyInt n)
    /\ both_store host_16_no_affinity "granite-7b" "prometheus-8x7b"
         "taxonomy" "main" default_output_dir (PyStr "auto") (Some 2%Z) false
         start (PyInt n')
    /\ (n <= n')%Z.
Proof.
  assert (Hc : (usable_cpu_count host_4_of_8
                <= usable_cpu_count host_16_no_affinity)%Z)
    by (vm_compute; discriminate).
  assert (Hg : (1 <= 2)%Z) by (vm_compute; discriminate).
  exact (proj1 (auto_budget_monotone host_4_of_8 host_16_no_affinity
                  "granite-7b" "prometheus-8x7b" "taxonomy" "main"
                  default_output_dir 1 2 false start Hc Hg)).
Defined.

Lemma construction_host_dependence_example :
  new (MTBenchEvaluator__init__ host_4_of_8 "granite-7b" "prometheus-8x7b"
         default_output_dir default_max_workers (Some 1%Z) false) start
  = new (MTBenchEvaluator__init__
           {| sched_getaffinity := None; cpu_count := 4 |} "granite-7b"
           "prometheus-8x7b" default_output_dir default_max_workers
           (Some 1%Z) false) start.
Proof.
  assert (Hc : usable_cpu_count host_4_of_8
               = usable_cpu_count {| sched_getaffinity := None; cpu_count := 4 |})
    by (vm_compute; reflexivity).
  exact (proj1 (construction_host_dependence host_4_of_8
                  {| sched_getaffinity := None; cpu_count := 4 |}
                  "granite-7b" "prometheus-8x7b" "taxonomy" "main"
                  default_output_dir default_max_workers (Some 1%Z) false
                  start (or_intror Hc))).
Defined.

Lemma standard_gen_answers_example :
  constructs standard_init start (attrs standard_evaluator)
  /\ fst (MTBenchEvaluator_gen_answers mock_collaborators mock_server_url
            standard_evaluator) = Ok PyNone
  /\ calls (snd (MTBenchEvaluator_gen_answers mock_collaborators
                   mock_server_url standard_evaluator))
     = [standard_generation_call (PyStr "granite-7b") mock_server_url
          (PyStr "eval_output") (PyInt 4)]
  /\ world (snd (MTBenchEvaluator_gen_answers mock_collaborators
                   mock_server_url standard_evaluator))
     = ["model_answer.jsonl"].
Proof.
  pose proof standard_evaluator_constructed as Hself.
  destruct (standard_gen_answers_call mock_collaborators host_4_of_8
              "granite-7b" "prometheus-8x7b" default_output_dir (PyInt 4)
              (Some 1%Z) default_merge_system_user_message start
              standard_evaluator mock_server_url Hself)
    as (v & Hv & Hfst & Hcalls & Hworld).
  assert (Hmw : attrs standard_evaluator !! "max_workers" = Some (PyInt 4))
    by (vm_compute; reflexivity).
  rewrite Hmw in Hv. injection Hv as <-.
  split; [exact Hself |].
  split; [exact Hfst |].
  split; [exact Hcalls | exact Hworld].
Defined.

Lemma branch_judge_answers_triple_example :
  constructs branch_init start (attrs branch_evaluator)
  /\ fst (mock_triple_collaborators
            (branch_judgment_call (PyStr "granite-7b")
               (PyStr "prometheus-8x7b") mock_judge_url (PyStr "main")
               (PyInt 4) (PyStr "eval_output") (PyBool false))
            (world branch_evaluator)) = Ok mock_triple
  /\ fst (MTBenchBranchEvaluator_judge_answers mock_triple_collaborators
            mock_judge_url branch_evaluator) = Raise ValueError
  /\ world (snd (MTBenchBranchEvaluator_judge_answers
                   mock_triple_collaborators mock_judge_url branch_evaluator))
     = ["model_judgment.jsonl"].
Proof.
  pose proof branch_evaluator_constructed as Hself.
  destruct (branch_judge_answers_failures mock_triple_collaborators
              host_4_of_8 "granite-7b" "prometheus-8x7b" "taxonomy" "main"
              default_output_dir (PyInt 4) default_serving_gpus
              default_merge_system_user_message start
              branch_evaluator mock_judge_url Hself)
    as (v & Hv & Hworld & Hraise & Htuple & Hnone).
  split; [exact Hself |].
  split; [reflexivity |].
  split; [| exact Hworld].
  apply (Htuple [PyFloat 4620130267728707584; PyList []; PyList []]).
  - reflexivity.
  - discriminate.
Defined.

Lemma standard_pipeline_example :
  constructs standard_init start (attrs standard_evaluator)
  /\ (let run :=
        MTBenchEvaluator_judge_answers mock_collaborators mock_judge_url
          (snd (MTBenchEvaluator_gen_answers mock_collaborators
                  mock_server_url standard_evaluator)) in
      fst run = Ok mock_judgment
      /\ map callee (calls (snd run))
         = [mt_bench_answers_generate_answers;
            mt_bench_judgment_generate_judgment]
      /\ world (snd run) = ["model_answer.jsonl"; "model_judgment.jsonl"]).
Proof.
  pose proof standard_evaluator_constructed as Hself.
  destruct (standard_pipeline mock_collaborators host_4_of_8
              "granite-7b" "prometheus-8x7b" default_output_dir (PyInt 4)
              (Some 1%Z) default_merge_system_user_message start
              standard_evaluator mock_server_url mock_judge_url Hself)
    as (v & Hv & Hpipe).
  destruct (Hpipe PyNone ["model_answer.jsonl"] eq_refl)
    as (Hfst & Hcalls & Hworld & Hattrs).
  split; [exact Hself |].
  split; [exact Hfst |].
  split; [exact (f_equal (map callee) Hcalls) | exact Hworld].
Defined.

Lemma branch_pipeline_order_example :
  constructs branch_init start (attrs branch_evaluator)
  /\ (let run :=
        MTBenchBranchEvaluator_judge_answers mock_collaborators mock_judge_url
          (snd (MTBenchBranchEvaluator_gen_answers mock_collaborators
                  mock_server_url branch_evaluator)) in
      map callee (calls (snd run))
      = [mt_bench_branch_generator_generate;
         mt_bench_answers_generate_answers;
         mt_bench_judgment_generate_judgment]
      /\ world (snd run)
         = ["question.jsonl"; "model_answer.jsonl"; "model_judgment.jsonl"]
      /\ fst run
         = Ok (PyTuple [PyList [PyDict [(PyStr "question_id", PyInt 81);
                                        (PyStr "score", PyInt 8)]];
                        PyFloat 0])).
Proof.
  pose proof branch_evaluator_constructed as Hself.
  destruct (branch_pipeline_order mock_collaborators host_4_of_8
              "granite-7b" "prometheus-8x7b" "taxonomy" "main"
              default_output_dir (PyInt 4) default_serving_gpus
              default_merge_system_user_message start
              branch_evaluator mock_server_url mock_judge_url Hself)
    as (v & Hv & Hpipe).
  destruct (Hpipe PyNone ["question.jsonl"]
              PyNone ["question.jsonl"; "model_answer.jsonl"]
              eq_refl eq_refl)
    as (Hcalls & Hworld & Hattrs & Hpair).
  split; [exact Hself |].
  split; [exact (f_equal (map callee) Hcalls) |].
  split; [exact Hworld |].
  exact (Hpair _ _ _ _ eq_refl).
Defined.
